(** * Verification of the ECC batch processing core (ecc_batch/views.py)

    Shallow embedding of the pure parts of [src/ecc_batch/views.py]:
    the table-mode field extractors, the record filters, the three ledger
    batch generators and the reconciliation of a full batch against the
    accepted cheque numbers of a report.

    Modelling conventions:
    - Python [str] values are Rocq [string]s over ASCII; [str.isdigit],
      [str.isalpha], [str.upper] and [str.strip] are their ASCII versions.
    - A PDF table cell is [option string] ([None] is Python's [None]).
    - Floats are modelled by the exact rational value of the decimal text
      they are parsed from ([Q]); comparisons with 0, 1e8 or a threshold
      therefore agree with the float ones except within half an ulp of the
      bound.
    - An xlrd cell value is modelled by its [str()] rendering. *)

From Stdlib Require Import String Ascii List Bool ZArith QArith Lia.
From Stdlib Require Import Numbers.DecimalString.
Import ListNotations.
Open Scope string_scope.
Open Scope list_scope.

(* ------------------------------------------------------------------ *)
(** ** Python string helpers *)

Module Py.

Definition is_digit (c : ascii) : bool :=
  let n := nat_of_ascii c in (48 <=? n)%nat && (n <=? 57)%nat.

Definition is_alpha_char (c : ascii) : bool :=
  let n := nat_of_ascii c in
  ((65 <=? n)%nat && (n <=? 90)%nat) || ((97 <=? n)%nat && (n <=? 122)%nat).

(** [str.isspace] on ASCII: \t \n \v \f \r, the separators 0x1c-0x1f
    and the space. *)
Definition is_space (c : ascii) : bool :=
  let n := nat_of_ascii c in
  ((9 <=? n)%nat && (n <=? 13)%nat) || ((28 <=? n)%nat && (n <=? 32)%nat).

Definition upper_char (c : ascii) : ascii :=
  let n := nat_of_ascii c in
  if (97 <=? n)%nat && (n <=? 122)%nat then ascii_of_nat (n - 32) else c.

Definition lower_char (c : ascii) : ascii :=
  let n := nat_of_ascii c in
  if (65 <=? n)%nat && (n <=? 90)%nat then ascii_of_nat (n + 32) else c.

Fixpoint upper (s : string) : string :=
  match s with
  | EmptyString => EmptyString
  | String c s' => String (upper_char c) (upper s')
  end.

Fixpoint lower (s : string) : string :=
  match s with
  | EmptyString => EmptyString
  | String c s' => String (lower_char c) (lower s')
  end.

Fixpoint lstrip (s : string) : string :=
  match s with
  | EmptyString => EmptyString
  | String c s' => if is_space c then lstrip s' else s
  end.

Fixpoint rstrip (s : string) : string :=
  match s with
  | EmptyString => EmptyString
  | String c s' =>
      let r := rstrip s' in
      if String.eqb r "" && is_space c then "" else String c r
  end.

(** [s.strip()] *)
Definition strip (s : string) : string := rstrip (lstrip s).

Fixpoint all_chars (p : ascii -> bool) (s : string) : bool :=
  match s with
  | EmptyString => true
  | String c s' => p c && all_chars p s'
  end.

Fixpoint any_char (p : ascii -> bool) (s : string) : bool :=
  match s with
  | EmptyString => false
  | String c s' => p c || any_char p s'
  end.

(** [s.isdigit()] *)
Definition isdigit (s : string) : bool :=
  negb (String.eqb s "") && all_chars is_digit s.

(** [s.isalpha()] *)
Definition isalpha (s : string) : bool :=
  negb (String.eqb s "") && all_chars is_alpha_char s.

(** [sub in s] *)
Fixpoint contains (sub s : string) : bool :=
  prefix sub s ||
  match s with
  | EmptyString => false
  | String _ s' => contains sub s'
  end.

(** [s.replace(c, '')] *)
Fixpoint remove_char (c : ascii) (s : string) : string :=
  match s with
  | EmptyString => EmptyString
  | String d s' => if Ascii.eqb c d then remove_char c s' else String d (remove_char c s')
  end.

(** [s[:n]] *)
Definition take (n : nat) (s : string) : string := substring 0 n s.

(** [s.split()] : split on runs of whitespace, dropping empty pieces. *)
Fixpoint split_aux (cur : string) (s : string) : list string :=
  match s with
  | EmptyString => if String.eqb cur "" then [] else [cur]
  | String c s' =>
      if is_space c
      then (if String.eqb cur "" then [] else [cur]) ++ split_aux "" s'
      else split_aux (cur ++ String c "") s'
  end.

Definition split (s : string) : list string := split_aux "" s.

(** [x in xs] for a list or set of strings *)
Definition mem (x : string) (xs : list string) : bool :=
  existsb (String.eqb x) xs.

(** Truthiness of a table cell: [None] and [''] are falsy. *)
Definition cell_truthy (c : option string) : option string :=
  match c with
  | Some s => if String.eqb s "" then None else Some s
  | None => None
  end.

(** Truthiness of an optional string result. *)
Definition or_default (o : option string) (d : string) : string :=
  match o with
  | Some s => if String.eqb s "" then d else s
  | None => d
  end.

End Py.

(* ------------------------------------------------------------------ *)
(** ** Cheque records (the dicts built by the extractors) *)

Record cheque_record := mk_record {
  bfd_account : string;
  cheque_amount : Q;
  pay_bank_name : string;
  pay_account : string;
  cheque_number : string;
  branch_code : string;
  reason : string
}.

(** A ledger row: BRANCHCODE, MAINCODE, TRANCODE, AMOUNT, LCYAMOUNT,
    DESC1, DESC2. *)
Record ledger_row := mk_row {
  row_branch : string;
  row_main : string;
  row_trancode : string;
  row_amount : Q;
  row_lcy_amount : Q;
  row_desc1 : string;
  row_desc2 : string
}.

(* ------------------------------------------------------------------ *)
(** ** Data filtering *)

(** [filter_accepted_cheques]: reason upper-cased and stripped contains
    ['ACCEPTED']. *)
Definition is_accepted (r : cheque_record) : bool :=
  Py.contains "ACCEPTED" (Py.strip (Py.upper (reason r))).

Definition filter_accepted_cheques (data : list cheque_record) : list cheque_record :=
  filter is_accepted data.

(** [amount > threshold] *)
Definition Qgtb (a b : Q) : bool := negb (Qle_bool a b).

(** The threshold filter of [generate_commission_batch]
    ([if amount > amount_threshold: eligible.append(record)]). *)
Definition filter_by_threshold (data : list cheque_record) (threshold : Q)
  : list cheque_record :=
  filter (fun r => Qgtb (cheque_amount r) threshold) data.

(* ------------------------------------------------------------------ *)
(** ** Full / accepted batch: [generate_excel_batch] *)

(** [str(record['pay_bank_name']).upper().replace(' ', '')] *)
Definition bank_tag (r : cheque_record) : string :=
  Py.remove_char " " (Py.upper (pay_bank_name r)).

(** One row of [_write_debit_entries]. *)
Definition debit_entry (r : cheque_record) : ledger_row :=
  let maincode := bfd_account r in
  let branch := if (3 <=? String.length maincode)%nat then Py.take 3 maincode else maincode in
  let amount := cheque_amount r in
  mk_row branch maincode "555" amount amount ""
         ("CLG " ++ bank_tag r ++ " " ++ cheque_number r).

Definition write_debit_entries (data : list cheque_record) : list ledger_row :=
  map debit_entry data.

(** One row of [_write_credit_entries]. *)
Definition credit_entry (clearing_account clearing_branch : string)
  (r : cheque_record) : ledger_row :=
  let maincode := bfd_account r in
  let amount := cheque_amount r in
  mk_row clearing_branch clearing_account "055" (- amount) (- amount)
         ("CLG TFR " ++ maincode)
         (Py.strip (bank_tag r ++ " " ++ Py.strip (pay_account r))).

Definition write_credit_entries (data : list cheque_record)
  (clearing_account clearing_branch : string) : list ledger_row :=
  map (credit_entry clearing_account clearing_branch) data.

Definition batch_headers : list string :=
  ["BRANCHCODE"; "MAINCODE"; "TRANCODE"; "AMOUNT"; "LCYAMOUNT"; "DESC1"; "DESC2"].

(** The data rows (sheet rows 1..) written by [generate_excel_batch];
    row 0 holds [batch_headers]. *)
Definition generate_excel_batch (data : list cheque_record)
  (clearing_account clearing_branch : string) : list ledger_row :=
  write_debit_entries data ++ write_credit_entries data clearing_account clearing_branch.

(* ------------------------------------------------------------------ *)
(** ** Commission batch: [generate_commission_batch] *)

Definition Z_to_string (z : Z) : string := NilEmpty.string_of_int (Z.to_int z).

Definition digit_char (z : Z) : ascii := ascii_of_nat (48 + Z.to_nat z).

Fixpoint frac_digits (fuel : nat) (r d : Z) : string :=
  match fuel with
  | O => ""
  | S fuel' =>
      if (r =? 0)%Z then ""
      else String (digit_char (10 * r / d)) (frac_digits fuel' ((10 * r) mod d) d)
  end.

(** [f"{amt_int}"] with [amt_int = int(x) if x == int(x) else x]: a whole
    amount is printed as an integer, any other as its decimal expansion
    (Python's shortest float repr, which for an amount read from a decimal
    text of at most 17 significant digits and at least 1e-4 is that
    decimal text without trailing zeros). *)
Definition fmt_amount (q : Q) : string :=
  let q' := Qred q in
  let n := Qnum q' in
  let d := Zpos (Qden q') in
  if (d =? 1)%Z then Z_to_string n
  else (if (n <? 0)%Z then "-" else "") ++ Z_to_string (Z.abs n / d) ++ "."
       ++ frac_digits 17 (Z.abs n mod d) d.

Definition commission_desc1 (r : cheque_record) : string :=
  "Ecc Charge Rs." ++ fmt_amount (cheque_amount r).

(** One row of the [--- Debit rows (055) ---] loop. *)
Definition commission_debit_row (clearing_branch : string) (commission_amount : Q)
  (r : cheque_record) : ledger_row :=
  let bfd := bfd_account r in
  let branch := if (3 <=? String.length bfd)%nat then Py.take 3 bfd else clearing_branch in
  mk_row branch bfd "055" (- commission_amount) (- commission_amount)
         (commission_desc1 r) ("CLG " ++ bank_tag r ++ " " ++ cheque_number r).

(** One row of the [--- Credit rows (555) ---] loop. *)
Definition commission_credit_row (commission_account clearing_branch : string)
  (commission_amount : Q) (r : cheque_record) : ledger_row :=
  mk_row clearing_branch commission_account "555" commission_amount commission_amount
         (commission_desc1 r) (bfd_account r).

Inductive commission_result :=
| CommNoData                          (* 'No data extracted from PDF' *)
| CommNoEligible                      (* 'No ACCEPTED cheques with amount greater ...' *)
| CommBatch (rows : list ledger_row). (* rows of 'comm_batch.xls' from row 0 *)

(** [generate_commission_batch] after extraction, on the extracted
    records and the parsed form inputs. *)
Definition generate_commission_batch (extracted_data : list cheque_record)
  (commission_account : string) (commission_amount amount_threshold : Q)
  (clearing_branch : string) : commission_result :=
  match extracted_data with
  | [] => CommNoData
  | _ =>
      let eligible := filter_by_threshold extracted_data amount_threshold in
      match eligible with
      | [] => CommNoEligible
      | _ => CommBatch (map (commission_debit_row clearing_branch commission_amount) eligible
                        ++ map (commission_credit_row commission_account clearing_branch
                                  commission_amount) eligible)
      end
  end.

(* ------------------------------------------------------------------ *)
(** ** Python [float()] on a string *)

Module PyFloat.

Definition dval (c : ascii) : Z := Z.of_nat (nat_of_ascii c - 48).

(** Digits after the first one of a digitpart: [digit (['_'] digit)*]. *)
Fixpoint digits_tail (l : list ascii) : list Z * list ascii :=
  match l with
  | [] => ([], [])
  | c :: l' =>
      if Py.is_digit c then
        let (ds, r) := digits_tail l' in (dval c :: ds, r)
      else if Ascii.eqb c "_" then
        match l' with
        | c2 :: l'' =>
            if Py.is_digit c2 then let (ds, r) := digits_tail l'' in (dval c2 :: ds, r)
            else ([], l)
        | [] => ([], l)
        end
      else ([], l)
  end.

Definition digitpart (l : list ascii) : option (list Z * list ascii) :=
  match l with
  | c :: l' => if Py.is_digit c then let (ds, r) := digits_tail l' in Some (dval c :: ds, r)
               else None
  | [] => None
  end.

Definition digits_value (ds : list Z) : Z := fold_left (fun acc d => 10 * acc + d)%Z ds 0%Z.

(** Mantissa: [digitpart ['.' [digitpart]] | '.' digitpart]. *)
Definition mantissa (l : list ascii) : option (list Z * list Z * list ascii) :=
  match digitpart l with
  | Some (ip, r) =>
      match r with
      | c :: r' =>
          if Ascii.eqb c "." then
            match digitpart r' with
            | Some (fp, r'') => Some (ip, fp, r'')
            | None => Some (ip, [], r')
            end
          else Some (ip, [], r)
      | [] => Some (ip, [], r)
      end
  | None =>
      match l with
      | c :: r' =>
          if Ascii.eqb c "." then
            match digitpart r' with
            | Some (fp, r'') => Some ([], fp, r'')
            | None => None
            end
          else None
      | [] => None
      end
  end.

Definition sign_of (l : list ascii) : Z * list ascii :=
  match l with
  | c :: l' => if Ascii.eqb c "-" then ((-1)%Z, l')
               else if Ascii.eqb c "+" then (1%Z, l') else (1%Z, l)
  | [] => (1%Z, l)
  end.

(** Optional exponent [('e' | 'E') [sign] digitpart], then end of input. *)
Definition exponent (l : list ascii) : option Z :=
  match l with
  | [] => Some 0%Z
  | c :: l' =>
      if Ascii.eqb c "e" || Ascii.eqb c "E" then
        let (s, l'') := sign_of l' in
        match digitpart l'' with
        | Some (ds, []) => Some (s * digits_value ds)%Z
        | _ => None
        end
      else None
  end.

(** The value of a finite float literal, or [None] where [float()] raises
    or the literal names inf/nan. *)
Definition parse (s : string) : option Q :=
  let l := list_ascii_of_string (Py.strip s) in
  let (sg, l1) := sign_of l in
  match mantissa l1 with
  | Some (ip, fp, r) =>
      match exponent r with
      | Some e =>
          let m := (sg * digits_value (ip ++ fp))%Z in
          Some (Qmake m (Pos.of_nat (Nat.pow 10 (List.length fp))) * Qpower (10 # 1) e)%Q
      | None => None
      end
  | None => None
  end.

Definition is_special (s : string) : bool :=
  let l := list_ascii_of_string (Py.lower (Py.strip s)) in
  let (_, l1) := sign_of l in
  let w := string_of_list_ascii l1 in
  Py.mem w ["inf"; "infinity"; "nan"].

(** [float(s)] does not raise. *)
Definition float_ok (s : string) : bool :=
  match parse s with Some _ => true | None => is_special s end.

End PyFloat.

(* ------------------------------------------------------------------ *)
(** ** Reconciliation: [generate_final_batch] *)

(** A row of the uploaded sheet, as [ws_in.row_values(i)] rendered by
    [str()]. *)
Definition xls_row := list string.

(** [accepted_cheque_numbers]: a Python set, modelled by a list whose only
    uses are membership and emptiness. *)
Fixpoint accepted_cheque_numbers (data : list cheque_record) : list string :=
  match data with
  | [] => []
  | r :: rest =>
      if is_accepted r then Py.strip (cheque_number r) :: accepted_cheque_numbers rest
      else accepted_cheque_numbers rest
  end.

(** The loop over rows 1.. that fills [rows_555] and [rows_055];
    [r[2]] on a row with fewer than 3 values raises ([None]). *)
Fixpoint split_by_trancode (rows : list xls_row) : option (list xls_row * list xls_row) :=
  match rows with
  | [] => Some ([], [])
  | r :: rest =>
      match nth_error r 2, split_by_trancode rest with
      | Some v, Some (r555, r055) =>
          let trancode := Py.strip v in
          if String.eqb trancode "555" then Some (r :: r555, r055)
          else if String.eqb trancode "055" then Some (r555, r :: r055)
          else Some (r555, r055)
      | _, _ => None
      end
  end.

(** [desc2.split()[-1] if parts else ''] *)
Definition last_token (desc2 : string) : string :=
  match Py.split (Py.strip desc2) with
  | [] => ""
  | parts => last parts ""
  end.

(** The pairing loop [for idx, row_555 in enumerate(rows_555)]:
    [555] row [idx] pairs with [rows_055[idx]]. [row_555[6]] raises when
    missing, and so does [rows_055[idx]] when the pair is kept ([None]). *)
Fixpoint match_pairs_from (accepted : list string) (rows_055 : list xls_row) (idx : nat)
  (rows_555 : list xls_row) : option (list xls_row * list xls_row) :=
  match rows_555 with
  | [] => Some ([], [])
  | row_555 :: rest =>
      match nth_error row_555 6 with
      | None => None
      | Some desc2 =>
          let cheque_num := last_token desc2 in
          if Py.mem cheque_num accepted then
            match nth_error rows_055 idx with
            | None => None
            | Some row_055 =>
                match match_pairs_from accepted rows_055 (S idx) rest with
                | None => None
                | Some (k5, k0) => Some (row_555 :: k5, row_055 :: k0)
                end
            end
          else match_pairs_from accepted rows_055 (S idx) rest
      end
  end.

Definition match_pairs (accepted : list string) (rows_555 rows_055 : list xls_row)
  : option (list xls_row * list xls_row) :=
  match_pairs_from accepted rows_055 0 rows_555.

Inductive final_result :=
| FNoData                               (* 'No data extracted from PDF' *)
| FNoAccepted                           (* 'No ACCEPTED cheques found in the PDF.' *)
| FStructErr (n555 n055 : nat)          (* 'XLS structure error: ...' *)
| FNoMatches                            (* 'No matching ACCEPTED cheques found ...' *)
| FCrash                                (* an exception, reported with status 500 *)
| FOutput (headers : xls_row) (kept_555 kept_055 : list xls_row).

(** The output step: columns 3 and 4 are written as [float(val)]. *)
Definition row_writable (r : xls_row) : bool :=
  match nth_error r 3, nth_error r 4 with
  | Some a, Some b => PyFloat.float_ok a && PyFloat.float_ok b
  | Some a, None => PyFloat.float_ok a
  | None, _ => true
  end.

Definition write_final (headers : xls_row) (kept_555 kept_055 : list xls_row) : final_result :=
  match kept_555 with
  | [] => FNoMatches
  | _ =>
      if forallb row_writable kept_555 && forallb row_writable kept_055
      then FOutput headers kept_555 kept_055
      else FCrash
  end.

(** [generate_final_batch] after both uploads are saved: the records
    extracted from the PDF and the rows of the first sheet of the XLS. *)
Definition generate_final_batch (extracted_data : list cheque_record) (sheet : list xls_row)
  : final_result :=
  match extracted_data with
  | [] => FNoData
  | _ =>
      let accepted := accepted_cheque_numbers extracted_data in
      match accepted with
      | [] => FNoAccepted
      | _ =>
          match sheet with
          | [] => FCrash
          | headers :: rows =>
              match split_by_trancode rows with
              | None => FCrash
              | Some (rows_555, rows_055) =>
                  if negb (Nat.eqb (List.length rows_555) (List.length rows_055))
                  then FStructErr (List.length rows_555) (List.length rows_055)
                  else match match_pairs accepted rows_555 rows_055 with
                       | None => FCrash
                       | Some (kept_555, kept_055) => write_final headers kept_555 kept_055
                       end
              end
          end
      end
  end.

(* ------------------------------------------------------------------ *)
(** ** Table-mode extraction: [_extract_from_table] and its helpers *)

Module Table.

Definition cell := option string.
Definition row := list cell.

Definition nl : string := String (ascii_of_nat 10) "".

(** [len(row) > i and row[i]]: the cell's text when present and truthy. *)
Definition cell_at (r : row) (i : nat) : option string :=
  match nth_error r i with
  | Some c => Py.cell_truthy c
  | None => None
  end.

Definition BANK_NAME_FIXES : list (string * string) :=
  [("CITIZE", "CITIZENS"); ("KUMARI", "KUMARI"); ("KUMA", "KUMARI");
   ("SIDDHA", "SIDDHARTHA"); ("SIDDH", "SIDDHARTHA"); ("MACHI", "MACHAPUCHARE");
   ("MACHA", "MACHAPUCHARE"); ("SUNRI", "SUNRISE"); ("EXCEL", "EXCEL")].

(** [bank_name_fixes[name] if name in bank_name_fixes else name] *)
Definition fix_name (n : string) : string :=
  match find (fun kv => String.eqb (fst kv) n) BANK_NAME_FIXES with
  | Some (_, v) => v
  | None => n
  end.

(** *** [_extract_bfd_account] *)

Definition bfd_shape (s : string) : bool :=
  Py.isdigit s && (12 <=? String.length s)%nat && (String.length s <=? 17)%nat.

Fixpoint bfd_candidates (i : nat) (cells : row) : list (nat * nat * string) :=
  match cells with
  | [] => []
  | c :: rest =>
      match Py.cell_truthy c with
      | Some t =>
          let s := Py.strip t in
          if bfd_shape s then (String.length s, i, s) :: bfd_candidates (S i) rest
          else bfd_candidates (S i) rest
      | None => bfd_candidates (S i) rest
      end
  end.

(** The sort key [(len, -abs(i - 9))]. *)
Definition bfd_key_gt (a b : nat * nat * string) : bool :=
  let '(la, ia, _) := a in
  let '(lb, ib, _) := b in
  let da := (- Z.abs (Z.of_nat ia - 9))%Z in
  let db := (- Z.abs (Z.of_nat ib - 9))%Z in
  (lb <? la)%nat || ((la =? lb)%nat && (db <? da)%Z).

(** [candidates.sort(key=..., reverse=True); candidates[0]]: the sort is
    stable, so the first candidate in row order with the largest key. *)
Definition best_candidate (cs : list (nat * nat * string)) : option string :=
  match cs with
  | [] => None
  | c :: rest =>
      let '(_, _, s) := fold_left (fun best x => if bfd_key_gt x best then x else best) rest c in
      Some s
  end.

Definition extract_bfd_account (r : row) : option string :=
  let fallback := best_candidate (bfd_candidates 0 r) in
  match cell_at r 9 with
  | Some c => let s := Py.strip c in if bfd_shape s then Some s else fallback
  | None => fallback
  end.

(** *** [_extract_cheque_number] *)

Definition cheque_shape (s : string) : bool :=
  Py.isdigit s && (6 <=? String.length s)%nat && (String.length s <=? 10)%nat.

Fixpoint cheque_scan (cells : row) : option string :=
  match cells with
  | [] => None
  | c :: rest =>
      match Py.cell_truthy c with
      | Some t => let s := Py.strip t in if cheque_shape s then Some s else cheque_scan rest
      | None => cheque_scan rest
      end
  end.

Definition extract_cheque_number (r : row) : option string :=
  match cell_at r 6 with
  | Some c => let s := Py.strip c in if cheque_shape s then Some s else cheque_scan r
  | None => cheque_scan r
  end.

(** *** [_extract_amount] *)

(** [amount_str.replace('.', '').replace('-', '').isdigit()] *)
Definition amount_shape (amount_str : string) : bool :=
  Py.isdigit (Py.remove_char "-" (Py.remove_char "." amount_str)).

Definition has_sep (s : string) : bool := Py.contains "," s || Py.contains "." s.

Definition in_bounds (amt : Q) : bool := Qgtb amt 0 && Qgtb 100000000 amt.

(** The primary path: column 13. [None] when it falls through (including
    the [float()] exception swallowed by [except Exception: pass]). *)
Definition amount_primary (r : row) : option Q :=
  match cell_at r 13 with
  | Some c =>
      let s := Py.strip c in
      if has_sep s || Py.isdigit s then
        let amount_str := Py.remove_char "," s in
        if amount_shape amount_str then
          match PyFloat.parse amount_str with
          | Some amt => if Qgtb amt 0 then Some amt else None
          | None => None
          end
        else None
      else None
  | None => None
  end.

(** The fallback scan over all cells. *)
Fixpoint amount_scan (cells : row) : option Q :=
  match cells with
  | [] => None
  | c :: rest =>
      match Py.cell_truthy c with
      | None => amount_scan rest
      | Some t =>
          let s := Py.strip t in
          if has_sep s then
            let amount_str := Py.remove_char "," s in
            if amount_shape amount_str then
              match PyFloat.parse amount_str with
              | Some amt => if in_bounds amt then Some amt else amount_scan rest
              | None => amount_scan rest
              end
            else amount_scan rest
          else if Py.isdigit s && (3 <=? String.length s)%nat then
            match PyFloat.parse s with
            | Some amt => if in_bounds amt then Some amt else amount_scan rest
            | None => amount_scan rest
            end
          else amount_scan rest
      end
  end.

Definition extract_amount (r : row) : option Q :=
  match amount_primary r with
  | Some amt => Some amt
  | None => amount_scan r
  end.

(** *** [_extract_branch_code] *)

Fixpoint branch_scan (cells : row) : option string :=
  match cells with
  | [] => None
  | c :: rest =>
      match Py.cell_truthy c with
      | Some t =>
          let s := Py.strip t in
          if Py.isdigit s && (String.length s =? 3)%nat && negb (String.eqb s "201")
          then Some s else branch_scan rest
      | None => branch_scan rest
      end
  end.

Definition extract_branch_code (r : row) : option string :=
  match cell_at r 7 with
  | Some c =>
      let s := Py.strip c in
      if Py.isdigit s && (String.length s =? 3)%nat then Some s else branch_scan r
  | None => branch_scan r
  end.

(** *** [_extract_bank_info] *)

Definition bank_primary (r : row) : option string :=
  match cell_at r 11 with
  | Some c =>
      let s := Py.strip c in
      let name :=
        if Py.contains nl s then Some (Py.strip (Py.remove_char (ascii_of_nat 10) s))
        else if Py.isalpha s || (negb (String.eqb s "") && negb (Py.isdigit s))
        then Some (Py.upper s) else None in
      match name with
      | Some n => if String.eqb n "" then Some n else Some (fix_name n)
      | None => None
      end
  | None => None
  end.

Definition account_at (r : row) (i : nat) : option string :=
  match cell_at r i with
  | Some c => let a := Py.strip c in
              if Py.isdigit a && (8 <=? String.length a)%nat then Some a else None
  | None => None
  end.

(** The fallback scan: a 3-4 digit cell, then a bank-name cell, then
    optionally a pay-account cell; [break] after the first hit. *)
Fixpoint bank_scan (r : row) (i : nat) (cells : row) (pay_account : option string)
  : option string * option string :=
  match cells with
  | [] => (None, pay_account)
  | c :: rest =>
      let continue := bank_scan r (S i) rest pay_account in
      match Py.cell_truthy c with
      | None => continue
      | Some t =>
          let s := Py.strip t in
          if Py.isdigit s && (3 <=? String.length s)%nat && (String.length s <=? 4)%nat
             && (i + 2 <? List.length r)%nat then
            match cell_at r (S i) with
            | Some nc =>
                let next_cell := Py.strip nc in
                if negb (String.eqb next_cell "")
                   && (Py.isalpha next_cell || Py.contains nl next_cell) then
                  let name :=
                    if Py.contains nl next_cell
                    then Py.strip (Py.remove_char (ascii_of_nat 10) next_cell)
                    else Py.upper next_cell in
                  let acct := match account_at r (i + 2) with
                              | Some a => Some a
                              | None => pay_account
                              end in
                  (Some (fix_name name), acct)
                else continue
            | None => continue
            end
          else continue
      end
  end.

Definition extract_bank_info (r : row) : option string * option string :=
  let pay_bank_name := bank_primary r in
  let pay_account := account_at r 12 in
  match pay_bank_name with
  | Some n => if String.eqb n "" then bank_scan r 0 r pay_account else (Some n, pay_account)
  | None => bank_scan r 0 r pay_account
  end.

(** *** [_extract_reason] *)

Definition reason_keywords : list string :=
  ["INSUFFICIENT"; "SIGNATURE"; "ACCOUNT"; "CLOSED"; "STOP";
   "PAYMENT"; "DRAWER"; "IRREGUL"; "FUNDS"; "REFER"; "EXCEEDS";
   "AMOUNT"; "WORDS"; "FIGURES"; "DIFFER"; "POST"; "DATED";
   "STALE"; "MUTILATED"; "CLEARING"; "ENDORSEMENT"; "ACCEPTED";
   "INVALID"; "WRONG"].

Definition reason_stoplist : list string :=
  ["CLG"; "BANK"; "ENDORSEMENT"; "BFD"; "PAY"; "ACCOUNT"].

Definition numeric_text (s : string) : bool :=
  Py.isdigit (Py.remove_char "." (Py.remove_char "," s)).

(** The backward scan, on the cells in reverse order. *)
Fixpoint reason_scan (rev_cells : row) : option string :=
  match rev_cells with
  | [] => None
  | c :: rest =>
      match Py.cell_truthy c with
      | None => reason_scan rest
      | Some t =>
          let s := Py.upper (Py.strip t) in
          if numeric_text s then reason_scan rest
          else if (String.length s <? 3)%nat then reason_scan rest
          else if Py.mem s reason_stoplist then reason_scan rest
          else if existsb (fun k => Py.contains k s) reason_keywords then Some s
          else if Py.contains " " s && Py.any_char Py.is_alpha_char s then Some s
          else reason_scan rest
      end
  end.

Definition extract_reason (r : row) : option string :=
  match cell_at r 13 with
  | Some c =>
      let s := Py.upper (Py.strip c) in
      if (3 <=? String.length s)%nat && negb (numeric_text s) then Some s
      else reason_scan (rev r)
  | None => reason_scan (rev r)
  end.

(** *** [_extract_from_table] *)

Definition header_labels : list string :=
  ["SESSION"; "SN"; "S.N"; "S.N."; "SR"; "NO"; "SERIAL"; "DATE"; "SEQUENCE"].

(** The body of the row loop: [Some record] when a record is appended. *)
Definition extract_row (r : row) : option cheque_record :=
  if (List.length r <? 9)%nat then None
  else
    let first_cell := match cell_at r 0 with
                      | Some c => Py.upper (Py.strip c)
                      | None => ""
                      end in
    if Py.mem first_cell header_labels then None
    else if Py.contains "TOTAL" first_cell || Py.contains "END OF REPORT" first_cell then None
    else
      let bfd := extract_bfd_account r in
      let cheque_number := extract_cheque_number r in
      let cheque_amount := extract_amount r in
      let '(pay_bank_name, pay_account) := extract_bank_info r in
      let branch := extract_branch_code r in
      let reason := extract_reason r in
      match bfd, cheque_amount, cheque_number with
      | Some b, Some a, Some n =>
          if negb (String.eqb b "") && negb (Qeq_bool a 0) && negb (String.eqb n "") then
            Some (mk_record b a (Py.or_default pay_bank_name "CLG")
                            (Py.or_default pay_account "") n
                            (Py.or_default branch "255") (Py.or_default reason ""))
          else None
      | _, _, _ => None
      end.

Definition extract_from_table (tables : list (list row)) : list cheque_record :=
  flat_map (fun table =>
              flat_map (fun r => match extract_row r with Some x => [x] | None => [] end) table)
           tables.

End Table.

(* ------------------------------------------------------------------ *)
(** ** Text-mode extraction: [_extract_from_text] and its helpers *)

Module Text.

(** [text.split('\n')]: pieces between newlines, empty ones kept. *)
Fixpoint split_lines_aux (cur : string) (s : string) : list string :=
  match s with
  | EmptyString => [cur]
  | String c s' =>
      if Ascii.eqb c (ascii_of_nat 10) then cur :: split_lines_aux "" s'
      else split_lines_aux (cur ++ String c "") s'
  end.

Definition split_lines (text : string) : list string := split_lines_aux "" text.

(** [str.isupper()] on ASCII: some cased character, none lower-case. *)
Definition is_lower_char (c : ascii) : bool :=
  let n := nat_of_ascii c in (97 <=? n)%nat && (n <=? 122)%nat.

Definition isupper (s : string) : bool :=
  Py.any_char Py.is_alpha_char s && negb (Py.any_char is_lower_char s).

(** *** [_extract_bfd_account_from_parts] *)

(** [(len(a), a) > (len(b), b)] on Python tuples. *)
Definition cand_gt (a b : string) : bool :=
  (String.length b <? String.length a)%nat
  || ((String.length a =? String.length b)%nat
      && match String.compare a b with Gt => true | _ => false end).

(** [candidates.sort(reverse=True); candidates[0][1]]: the largest
    [(len(p), p)]. *)
Definition extract_bfd_account_from_parts (parts : list string) : option string :=
  match filter Table.bfd_shape parts with
  | [] => None
  | c :: rest => Some (fold_left (fun best x => if cand_gt x best then x else best) rest c)
  end.

(** *** [_extract_bank_info_from_parts] *)

Definition bank_stoplist : list string :=
  ["ACCEPTED"; "Bank"; "Endorsement"; "Irregular"; "Fund"; "BFD"; "PAY"].

Definition bank_values : list string := map snd Table.BANK_NAME_FIXES.

(** The candidate-token loop: the index and name of the first upper-case
    alphabetic token of length 2..12 not in the stoplist, joined with the
    first token of the next line when that looks like its continuation. *)
Fixpoint bank_scan (next_line : option string) (idx : nat) (parts : list string)
  : option (nat * string) :=
  match parts with
  | [] => None
  | part :: rest =>
      if Py.isalpha part && (2 <=? String.length part)%nat
         && (String.length part <=? 12)%nat && isupper part then
        if Py.mem part bank_stoplist then bank_scan next_line (S idx) rest
        else
          let joined :=
            match next_line with
            | Some line =>
                if (String.length part <? 6)%nat then
                  match Py.split line with
                  | first :: _ =>
                      if Py.isalpha first && (String.length first <=? 6)%nat then
                        let combined := (part ++ first)%string in
                        if Py.mem combined bank_values || (4 <=? String.length combined)%nat
                        then Some combined else None
                      else None
                  | [] => None
                  end
                else None
            | None => None
            end in
          match joined with
          | Some combined => Some (idx, combined)
          | None => Some (idx, Table.fix_name part)
          end
      else bank_scan next_line (S idx) rest
  end.

(** [all_lines[line_idx + 1]] when it exists. *)
Definition extract_bank_info_from_parts (parts : list string) (line_idx : nat)
  (all_lines : list string) : option string * option string :=
  match bank_scan (nth_error all_lines (S line_idx)) 0 parts with
  | None => (None, None)
  | Some (i, name) =>
      match nth_error parts (S i) with
      | Some next_part =>
          if Py.isdigit next_part && (8 <=? String.length next_part)%nat
          then (Some name, Some next_part) else (Some name, None)
      | None => (Some name, None)
      end
  end.

(** *** [_extract_cheque_number_from_parts], [_extract_branch_code_from_parts] *)

Definition extract_cheque_number_from_parts (parts : list string) : option string :=
  find Table.cheque_shape parts.

Definition extract_branch_code_from_parts (parts : list string) : option string :=
  find (fun p => Py.isdigit p && (String.length p =? 3)%nat && negb (String.eqb p "201")) parts.

(** *** [_extract_amount_from_parts] *)

Fixpoint amount_sep_scan (rev_parts : list string) : option Q :=
  match rev_parts with
  | [] => None
  | p :: rest =>
      if Table.has_sep p then
        let s := Py.remove_char "," p in
        if Table.amount_shape s then
          match PyFloat.parse s with
          | Some amt => if Table.in_bounds amt then Some amt else amount_sep_scan rest
          | None => amount_sep_scan rest
          end
        else amount_sep_scan rest
      else amount_sep_scan rest
  end.

Fixpoint amount_digit_scan (rev_parts : list string) : option Q :=
  match rev_parts with
  | [] => None
  | p :: rest =>
      if Py.isdigit p && (3 <=? String.length p)%nat then
        match PyFloat.parse p with
        | Some amt => if Table.in_bounds amt then Some amt else amount_digit_scan rest
        | None => amount_digit_scan rest
        end
      else amount_digit_scan rest
  end.

Definition extract_amount_from_parts (parts : list string) : option Q :=
  match amount_sep_scan (rev parts) with
  | Some amt => Some amt
  | None => amount_digit_scan (rev parts)
  end.

(** *** [_extract_reason_from_parts] *)

Definition text_reason_keywords : list string :=
  ["INSUFFICIENT"; "SIGNATURE"; "ACCOUNT"; "CLOSED"; "STOP";
   "PAYMENT"; "DRAWER"; "IRREGUL"; "FUNDS"; "REFER"; "EXCEEDS";
   "AMOUNT"; "WORDS"; "FIGURES"; "DIFFER"; "POST"; "DATED";
   "STALE"; "MUTILATED"; "CLEARING"; "ENDORSEMENT"; "ACCEPTED"].

(** The backward walk over the tokens, collecting [reason_parts] (in line
    order) until the first token holding a comma and a digit. *)
Fixpoint reason_walk (found_amount : bool) (rev_parts : list string) (acc : list string)
  : list string :=
  match rev_parts with
  | [] => acc
  | p :: rest =>
      let pu := Py.upper p in
      if Py.contains "," p && Py.any_char Py.is_digit p then acc
      else if existsb (fun k => Py.contains k pu) text_reason_keywords
      then reason_walk found_amount rest (p :: acc)
      else if found_amount || (String.length p <? 3)%nat then reason_walk found_amount rest acc
      else if negb (Py.isdigit p) && Py.isalpha p && negb (Py.mem pu ["CLG"; "BANK"; "BFD"; "PAY"])
      then reason_walk found_amount rest (p :: acc)
      else reason_walk found_amount rest acc
  end.

(** [' '.join(parts)] *)
Fixpoint join_space (xs : list string) : string :=
  match xs with
  | [] => ""
  | [x] => x
  | x :: rest => (x ++ " " ++ join_space rest)%string
  end.

Definition extract_reason_from_parts (parts : list string) : option string :=
  match reason_walk false (rev parts) [] with
  | [] => None
  | rs => Some (join_space rs)
  end.

(** *** [_extract_from_text] *)

Definition has_amount_token (p : string) : bool :=
  Py.contains "," p || (Py.contains "." p && Py.any_char Py.is_digit p).

(** The body of the line loop: [Some record] when a record is appended. *)
Definition extract_line (lines : list string) (idx : nat) (line : string)
  : option cheque_record :=
  let parts := Py.split line in
  if (List.length parts <? 9)%nat then None
  else if negb (existsb Table.cheque_shape parts && existsb has_amount_token parts) then None
  else
    let bfd := extract_bfd_account_from_parts parts in
    let '(pay_bank_name, pay_account) := extract_bank_info_from_parts parts idx lines in
    let cheque_number := extract_cheque_number_from_parts parts in
    let cheque_amount := extract_amount_from_parts parts in
    let branch := extract_branch_code_from_parts parts in
    let reason := extract_reason_from_parts parts in
    match bfd, cheque_amount, cheque_number with
    | Some b, Some a, Some n =>
        if negb (String.eqb b "") && negb (Qeq_bool a 0) && negb (String.eqb n "") then
          Some (mk_record b a (Py.or_default pay_bank_name "CLG")
                          (Py.or_default pay_account "") n
                          (Py.or_default branch "255") (Py.or_default reason ""))
        else None
    | _, _, _ => None
    end.

Fixpoint extract_lines (lines : list string) (idx : nat) (rest : list string)
  : list cheque_record :=
  match rest with
  | [] => []
  | line :: rest' =>
      match extract_line lines idx line with
      | Some r => r :: extract_lines lines (S idx) rest'
      | None => extract_lines lines (S idx) rest'
      end
  end.

(** [_extract_from_text(page)] on [page.extract_text()]. *)
Definition extract_from_text (text : option string) : list cheque_record :=
  match Py.cell_truthy text with
  | None => []
  | Some t => let lines := split_lines t in extract_lines lines 0 lines
  end.

End Text.

(* ------------------------------------------------------------------ *)
(** ** Document pipeline: [extract_pdf_data] *)

(** What the decoder gives for a page: [page.extract_tables()] and
    [page.extract_text()]. *)
Record page := mk_page {
  page_tables : list (list Table.row);
  page_text : option string
}.

Definition extract_page (p : page) : list cheque_record :=
  match page_tables p with
  | [] => Text.extract_from_text (page_text p)
  | tables => Table.extract_from_table tables
  end.

Definition extract_pdf_data (pages : list page) : list cheque_record :=
  flat_map extract_page pages.

(* ------------------------------------------------------------------ *)
(** ** Summary counts of [display_data_table] and [process_upload] *)

(** The disposition bucket of the statistics loop. *)
Inductive disposition := DAccepted | DInsufficient | DOther | DNone.

Definition disposition_of (r : cheque_record) : disposition :=
  let reason := Py.strip (Py.upper (reason r)) in
  if Py.contains "ACCEPTED" reason then DAccepted
  else if Py.contains "INSUFFICIENT" reason || Py.contains "FUNDS" reason then DInsufficient
  else if negb (String.eqb reason "") then DOther
  else DNone.

Record summary := mk_summary {
  total_records : Z;
  accepted_count : Z;
  insufficient_funds_count : Z;
  other_reasons_count : Z;
  no_reason_count : Z
}.

Definition count_step (acc : Z * Z * Z) (r : cheque_record) : Z * Z * Z :=
  let '(a, i, o) := acc in
  match disposition_of r with
  | DAccepted => (a + 1, i, o)%Z
  | DInsufficient => (a, i + 1, o)%Z
  | DOther => (a, i, o + 1)%Z
  | DNone => (a, i, o)
  end.

(** The counting part of the statistics loop and
    [no_reason_count = total_records - (accepted + insufficient + other)]. *)
Definition summarize (data : list cheque_record) : summary :=
  let total := Z.of_nat (List.length data) in
  let '(a, i, o) := fold_left count_step data (0, 0, 0)%Z in
  mk_summary total a i o (total - (a + i + o))%Z.

(* ------------------------------------------------------------------ *)
(** ** The [generate_batch] view *)

(** [request.POST.get(key, default).strip() or default] *)
Definition form_value (v : option string) (default : string) : string :=
  let s := Py.strip (match v with Some x => x | None => default end) in
  if String.eqb s "" then default else s.

Inductive batch_result :=
| BNoData                                        (* 'No data extracted from PDF' *)
| BNoAccepted                                    (* 'No accepted cheques found ...' *)
| BBatch (filename : string) (rows : list ledger_row).

(** [generate_batch] after extraction: the records, [batch_type] and the
    [branch_code] and [parking_account] form fields. *)
Definition generate_batch (extracted_data : list cheque_record) (batch_type : string)
  (branch_code parking_account : option string) : batch_result :=
  let clearing_branch := form_value branch_code "255" in
  let clearing_account := form_value parking_account "9313102000" in
  match extracted_data with
  | [] => BNoData
  | _ =>
      let data := if String.eqb batch_type "accepted"
                  then filter_accepted_cheques extracted_data else extracted_data in
      match data with
      | [] => BNoAccepted
      | _ =>
          let filename := if String.eqb batch_type "accepted"
                          then "ecc_batch_accepted.xls" else "ecc_batch.xls" in
          BBatch filename (generate_excel_batch data clearing_account clearing_branch)
      end
  end.

(* ================================================================== *)
(** * Properties *)

(** A record as extracted from the report row of the specification's
    scenario, with an accepted disposition. *)
Definition ex_record : cheque_record :=
  mk_record "98765432109876" 50000 "CITIZENS" "12345678" "1234567" "255" "ACCEPTED".

(** ** Shape of the full / accepted batch *)

Lemma generate_excel_batch_length (data : list cheque_record) (ca cb : string) :
  List.length (generate_excel_batch data ca cb) = (2 * List.length data)%nat.
Proof.
  unfold generate_excel_batch, write_debit_entries, write_credit_entries.
  rewrite length_app, !length_map. lia.
Qed.

Lemma generate_excel_batch_first_block (data : list cheque_record) (ca cb : string) :
  firstn (List.length data) (generate_excel_batch data ca cb) = map debit_entry data.
Proof.
  unfold generate_excel_batch, write_debit_entries.
  rewrite firstn_app, length_map, Nat.sub_diag, firstn_O, app_nil_r.
  rewrite <- (length_map debit_entry data), firstn_all. reflexivity.
Qed.

Lemma generate_excel_batch_second_block (data : list cheque_record) (ca cb : string) :
  skipn (List.length data) (generate_excel_batch data ca cb)
  = map (credit_entry ca cb) data.
Proof.
  unfold generate_excel_batch, write_debit_entries, write_credit_entries.
  rewrite skipn_app, length_map, Nat.sub_diag, skipn_O.
  rewrite <- (length_map debit_entry data), skipn_all. reflexivity.
Qed.

Lemma Forall2_map_r {A B : Type} (P : A -> B -> Prop) (f : A -> B) (l : list A) :
  (forall x, In x l -> P x (f x)) -> Forall2 P l (map f l).
Proof.
  induction l as [|x l IH]; simpl; intros H; constructor; auto.
Qed.

Lemma take3_of_branch (s : string) :
  (if (3 <=? String.length s)%nat then Py.take 3 s else s) = Py.take 3 s.
Proof.
  destruct (3 <=? String.length s)%nat eqn:E; [reflexivity|].
  apply Nat.leb_gt in E.
  do 3 (destruct s as [|? s]; [reflexivity|]). simpl in E. lia.
Qed.

(** C1 (refuted): on a one-record batch the first-block row carries "555"
    and the second-block row carries "055". *)
Lemma C1_counterexample :
  row_trancode (nth 0 (generate_excel_batch [ex_record] "9313102000" "255")
                  (mk_row "" "" "" 0 0 "" "")) = "555"
  /\ row_trancode (nth 1 (generate_excel_batch [ex_record] "9313102000" "255")
                     (mk_row "" "" "" 0 0 "" "")) = "055"
  /\ "555" <> "055".
Proof. split; [reflexivity | split; [reflexivity | discriminate]]. Qed.

(** C1 (amended): in the full/accepted batch every row of the first block
    (branch = first 3 characters of bfd_account, main code = bfd_account,
    amount = +cheque_amount) carries transaction code "555", and every row
    of the second block (the caller's clearing branch and account, amount
    = -cheque_amount) carries transaction code "055". *)
Theorem C1_trancodes_by_block (data : list cheque_record) (ca cb : string) :
  Forall2 (fun r row => row_branch row = Py.take 3 (bfd_account r)
                        /\ row_main row = bfd_account r
                        /\ row_trancode row = "555"
                        /\ row_amount row = cheque_amount r)
          data (firstn (List.length data) (generate_excel_batch data ca cb))
  /\ Forall2 (fun r row => row_branch row = cb
                           /\ row_main row = ca
                           /\ row_trancode row = "055"
                           /\ row_amount row = (- cheque_amount r)%Q)
             data (skipn (List.length data) (generate_excel_batch data ca cb)).
Proof.
  rewrite generate_excel_batch_first_block, generate_excel_batch_second_block.
  split; apply Forall2_map_r; intros r _.
  - cbn [debit_entry row_branch row_main row_trancode row_amount].
    rewrite take3_of_branch. auto.
  - cbn. auto.
Qed.

(** C3: the full/accepted batch of N records has 2*N rows; row i and row
    i+N are the debit and credit entries of record i, and their amounts
    (and local-currency amounts) are exact negatives of each other. *)
Theorem C3_pairing (data : list cheque_record) (ca cb : string) (i : nat)
  (r : cheque_record) (Hi : nth_error data i = Some r) :
  List.length (generate_excel_batch data ca cb) = (2 * List.length data)%nat
  /\ nth_error (generate_excel_batch data ca cb) i = Some (debit_entry r)
  /\ nth_error (generate_excel_batch data ca cb) (List.length data + i)%nat
     = Some (credit_entry ca cb r)
  /\ row_amount (credit_entry ca cb r) = (- row_amount (debit_entry r))%Q
  /\ row_lcy_amount (credit_entry ca cb r) = (- row_lcy_amount (debit_entry r))%Q.
Proof.
  assert (Hlt : (i < List.length data)%nat) by (apply nth_error_Some; congruence).
  split; [apply generate_excel_batch_length|].
  unfold generate_excel_batch, write_debit_entries, write_credit_entries.
  split; [|split; [|split; reflexivity]].
  - rewrite nth_error_app1 by (rewrite length_map; exact Hlt).
    rewrite nth_error_map, Hi. reflexivity.
  - rewrite nth_error_app2 by (rewrite length_map; lia).
    rewrite length_map, Nat.add_comm, Nat.add_sub, nth_error_map, Hi. reflexivity.
Qed.

Lemma C3_pairing_witness :
  nth_error [ex_record] 0 = Some ex_record
  /\ List.length (generate_excel_batch [ex_record] "9313102000" "255") = (2 * 1)%nat
  /\ nth_error (generate_excel_batch [ex_record] "9313102000" "255") 0
     = Some (debit_entry ex_record)
  /\ nth_error (generate_excel_batch [ex_record] "9313102000" "255") (1 + 0)%nat
     = Some (credit_entry "9313102000" "255" ex_record)
  /\ row_amount (credit_entry "9313102000" "255" ex_record)
     = (- row_amount (debit_entry ex_record))%Q
  /\ row_lcy_amount (credit_entry "9313102000" "255" ex_record)
     = (- row_lcy_amount (debit_entry ex_record))%Q.
Proof.
  split; [reflexivity|].
  exact (C3_pairing [ex_record] "9313102000" "255" 0 ex_record eq_refl).
Defined.

(** C8 (refuted): the description 2 of the debit-side row has a space
    between the bank name and the cheque number. *)
Lemma C8_counterexample :
  row_desc2 (nth 0 (generate_excel_batch [ex_record] "9313102000" "255")
               (mk_row "" "" "" 0 0 "" "")) = "CLG CITIZENS 1234567"
  /\ "CLG CITIZENS 1234567" <> ("CLG " ++ bank_tag ex_record ++ cheque_number ex_record)%string.
Proof. split; [reflexivity | discriminate]. Qed.

(** C8 (amended): the description 2 of each record's own-account row of
    the full/accepted batch is "CLG ", the bank name upper-cased with its
    spaces removed, one space, and the cheque number:
    "CLG {bank} {cheque_number}". *)
Theorem C8_debit_desc2 (data : list cheque_record) (ca cb : string) :
  Forall2 (fun r row => row_desc2 row
                        = ("CLG " ++ Py.remove_char " " (Py.upper (pay_bank_name r))
                          ++ " " ++ cheque_number r)%string)
          data (firstn (List.length data) (generate_excel_batch data ca cb)).
Proof.
  rewrite generate_excel_batch_first_block.
  apply Forall2_map_r. intros r _. reflexivity.
Qed.

(** C9: the accepted-reason filter and the amount-threshold filter
    commute (they give the same list, so the same set, in either order). *)
Theorem C9_filters_commute (data : list cheque_record) (threshold : Q) :
  filter_by_threshold (filter_accepted_cheques data) threshold
  = filter_accepted_cheques (filter_by_threshold data threshold).
Proof.
  unfold filter_by_threshold, filter_accepted_cheques.
  induction data as [|r data IH]; [reflexivity|]. simpl.
  destruct (is_accepted r) eqn:Ea, (Qgtb (cheque_amount r) threshold) eqn:Et;
    simpl; rewrite ?Ea, ?Et, IH; reflexivity.
Qed.

(** ** Commission batch *)

Lemma firstn_map_app {A B : Type} (f g : A -> B) (l : list A) :
  firstn (List.length l) (map f l ++ map g l) = map f l.
Proof.
  rewrite firstn_app, length_map, Nat.sub_diag, firstn_O, app_nil_r.
  rewrite <- (length_map f l), firstn_all. reflexivity.
Qed.

Lemma skipn_map_app {A B : Type} (f g : A -> B) (l : list A) :
  skipn (List.length l) (map f l ++ map g l) = map g l.
Proof.
  rewrite skipn_app, length_map, Nat.sub_diag, skipn_O.
  rewrite <- (length_map f l), skipn_all. reflexivity.
Qed.

Lemma Qgtb_spec (a b : Q) : Qgtb a b = true <-> (b < a)%Q.
Proof.
  unfold Qgtb. rewrite negb_true_iff. split; intros H.
  - apply Qnot_le_lt. intros Hle. apply Qle_bool_iff in Hle. congruence.
  - destruct (Qle_bool a b) eqn:E; [|reflexivity].
    apply Qle_bool_iff in E. exfalso. apply (Qlt_not_le _ _ H E).
Qed.

(** A cleared cheque above the default commission threshold. *)
Definition ex_big : cheque_record :=
  mk_record "98765432109876" 250000 "CITIZENS" "12345678" "1234567" "255" "ACCEPTED".

(** The specification's scenario: threshold 200000, one record of 250000,
    commission 15: a "055" row of -15 and a "555" row of +15. *)
Example commission_scenario :
  generate_commission_batch [ex_big] "9505062601" 15 200000 "255"
  = CommBatch [mk_row "987" "98765432109876" "055" (-15) (-15)
                      "Ecc Charge Rs.250000" "CLG CITIZENS 1234567";
               mk_row "255" "9505062601" "555" 15 15
                      "Ecc Charge Rs.250000" "98765432109876"].
Proof. vm_compute. reflexivity. Qed.

(** C6: the commission batch takes exactly the records whose amount is
    strictly greater than the threshold; when there are some it emits, per
    eligible record and in input order, a "055" row on the record's own
    account (branch = first 3 characters of bfd_account) for
    -commission_amount, then a "555" row on the commission account for
    +commission_amount. An empty report or an empty eligible list gives an
    error instead of a batch. Records carry a bfd_account of at least 3
    characters, as every extracted record does (12 to 17 digits). *)
Theorem C6_commission_rows (data : list cheque_record) (commission_account : string)
  (commission_amount threshold : Q) (clearing_branch : string)
  (Hbfd : Forall (fun r => (3 <= String.length (bfd_account r))%nat) data) :
  let eligible := filter_by_threshold data threshold in
  (forall r, In r eligible <-> In r data /\ (threshold < cheque_amount r)%Q)
  /\ match generate_commission_batch data commission_account commission_amount
             threshold clearing_branch with
     | CommNoData => data = []
     | CommNoEligible => data <> [] /\ eligible = []
     | CommBatch rows =>
         eligible <> []
         /\ List.length rows = (2 * List.length eligible)%nat
         /\ Forall2 (fun r row => row_branch row = Py.take 3 (bfd_account r)
                                  /\ row_main row = bfd_account r
                                  /\ row_trancode row = "055"
                                  /\ row_amount row = (- commission_amount)%Q)
                    eligible (firstn (List.length eligible) rows)
         /\ Forall2 (fun r row => row_branch row = clearing_branch
                                  /\ row_main row = commission_account
                                  /\ row_trancode row = "555"
                                  /\ row_amount row = commission_amount)
                    eligible (skipn (List.length eligible) rows)
     end.
Proof.
  cbv zeta. split.
  - intros r. unfold filter_by_threshold.
    rewrite filter_In, Qgtb_spec. reflexivity.
  - assert (Hsub : forall r, In r (filter_by_threshold data threshold) ->
                             (3 <= String.length (bfd_account r))%nat).
    { intros r Hr. unfold filter_by_threshold in Hr.
      apply filter_In in Hr. destruct Hr as [Hr _].
      rewrite Forall_forall in Hbfd. apply Hbfd. exact Hr. }
    unfold generate_commission_batch.
    destruct data as [|d0 ds]; [reflexivity|].
    destruct (filter_by_threshold (d0 :: ds) threshold) as [|e0 es] eqn:Ee.
    + split; [discriminate | reflexivity].
    + split; [discriminate|].
      split; [rewrite length_app, !length_map; lia|].
      rewrite firstn_map_app, skipn_map_app.
      split; apply Forall2_map_r; intros r Hr.
      * cbn [commission_debit_row row_branch row_main row_trancode row_amount].
        apply Hsub, Nat.leb_le in Hr. rewrite Hr. auto.
      * cbn. auto.
Qed.

Lemma C6_commission_rows_witness :
  Forall (fun r => (3 <= String.length (bfd_account r))%nat) [ex_big]
  /\ (let eligible := filter_by_threshold [ex_big] 200000 in
      (forall r, In r eligible <-> In r [ex_big] /\ (200000 < cheque_amount r)%Q)
      /\ match generate_commission_batch [ex_big] "9505062601" 15 200000 "255" with
         | CommNoData => [ex_big] = []
         | CommNoEligible => [ex_big] <> [] /\ eligible = []
         | CommBatch rows =>
             eligible <> []
             /\ List.length rows = (2 * List.length eligible)%nat
             /\ Forall2 (fun r row => row_branch row = Py.take 3 (bfd_account r)
                                      /\ row_main row = bfd_account r
                                      /\ row_trancode row = "055"
                                      /\ row_amount row = (- 15)%Q)
                        eligible (firstn (List.length eligible) rows)
             /\ Forall2 (fun r row => row_branch row = "255"
                                      /\ row_main row = "9505062601"
                                      /\ row_trancode row = "555"
                                      /\ row_amount row = 15%Q)
                        eligible (skipn (List.length eligible) rows)
         end).
Proof.
  assert (H : Forall (fun r => (3 <= String.length (bfd_account r))%nat) [ex_big])
    by (constructor; [simpl; lia | constructor]).
  split; [exact H|].
  exact (C6_commission_rows [ex_big] "9505062601" 15 200000 "255" H).
Defined.

(** The record with its disposition reason erased. *)
Definition forget_reason (r : cheque_record) : cheque_record :=
  mk_record (bfd_account r) (cheque_amount r) (pay_bank_name r) (pay_account r)
            (cheque_number r) (branch_code r) "".

Lemma filter_by_threshold_forget (data : list cheque_record) (threshold : Q) :
  map forget_reason (filter_by_threshold data threshold)
  = filter_by_threshold (map forget_reason data) threshold.
Proof.
  unfold filter_by_threshold.
  induction data as [|r data IH]; [reflexivity|]. simpl.
  destruct (Qgtb (cheque_amount r) threshold); simpl; rewrite IH; reflexivity.
Qed.

Lemma commission_batch_forget (data : list cheque_record) (ca : string)
  (camt threshold : Q) (cb : string) :
  generate_commission_batch data ca camt threshold cb
  = generate_commission_batch (map forget_reason data) ca camt threshold cb.
Proof.
  unfold generate_commission_batch.
  rewrite <- filter_by_threshold_forget.
  destruct data as [|d ds]; [reflexivity|].
  remember (filter_by_threshold (d :: ds) threshold) as e eqn:He. clear He.
  assert (HD : map (commission_debit_row cb camt) (map forget_reason e)
               = map (commission_debit_row cb camt) e)
    by (rewrite map_map; apply map_ext; reflexivity).
  assert (HC : map (commission_credit_row ca cb camt) (map forget_reason e)
               = map (commission_credit_row ca cb camt) e)
    by (rewrite map_map; apply map_ext; reflexivity).
  rewrite HD, HC. destruct e; reflexivity.
Qed.

(** C10: two record lists that agree on every field but the reason give
    the same eligible records (up to the reason) and the same commission
    batch, for all commission parameters. *)
Theorem C10_reason_irrelevant (l1 l2 : list cheque_record) (commission_account : string)
  (commission_amount threshold : Q) (clearing_branch : string)
  (Hsame : map forget_reason l1 = map forget_reason l2) :
  map forget_reason (filter_by_threshold l1 threshold)
  = map forget_reason (filter_by_threshold l2 threshold)
  /\ generate_commission_batch l1 commission_account commission_amount threshold clearing_branch
     = generate_commission_batch l2 commission_account commission_amount threshold
         clearing_branch.
Proof.
  split.
  - rewrite !filter_by_threshold_forget, Hsame. reflexivity.
  - rewrite (commission_batch_forget l1), (commission_batch_forget l2), Hsame.
    reflexivity.
Qed.

Definition ex_big_rejected : cheque_record :=
  mk_record "98765432109876" 250000 "CITIZENS" "12345678" "1234567" "255"
            "INSUFFICIENT FUNDS".

Lemma C10_reason_irrelevant_witness :
  map forget_reason [ex_big] = map forget_reason [ex_big_rejected]
  /\ map forget_reason (filter_by_threshold [ex_big] 200000)
     = map forget_reason (filter_by_threshold [ex_big_rejected] 200000)
  /\ generate_commission_batch [ex_big] "9505062601" 15 200000 "255"
     = generate_commission_batch [ex_big_rejected] "9505062601" 15 200000 "255".
Proof.
  assert (H : map forget_reason [ex_big] = map forget_reason [ex_big_rejected])
    by reflexivity.
  split; [exact H|].
  exact (C10_reason_irrelevant [ex_big] [ex_big_rejected] "9505062601" 15 200000 "255" H).
Defined.

(** ** Reconciliation *)

(** The cheque number recovered from a [555] row: the last token of its
    DESC2 value (column 6). *)
Definition debit_cheque_number (r : xls_row) : string := last_token (nth 6 r "").

Definition pair_kept (accepted : list string) (p : xls_row * xls_row) : bool :=
  Py.mem (debit_cheque_number (fst p)) accepted.

(** Rows whose stripped TRANCODE value (column 2) is [code]. *)
Definition has_trancode (code : string) (r : xls_row) : bool :=
  String.eqb (Py.strip (nth 2 r "")) code.

Lemma mem_In (x : string) (xs : list string) : Py.mem x xs = true <-> In x xs.
Proof.
  unfold Py.mem. rewrite existsb_exists. split.
  - intros [y [Hy Heq]]. apply String.eqb_eq in Heq. subst. exact Hy.
  - intros Hx. exists x. split; [exact Hx | apply String.eqb_refl].
Qed.

Lemma skipn_nth_error {A : Type} (l : list A) (n : nat) (x : A) :
  nth_error l n = Some x -> skipn n l = x :: skipn (S n) l.
Proof.
  revert l. induction n as [|n IH]; intros [|y l] H; simpl in *; try discriminate.
  - congruence.
  - apply IH. exact H.
Qed.

Lemma nth_error_nth_some {A : Type} (l : list A) (n : nat) (d : A) :
  (n < List.length l)%nat -> nth_error l n = Some (nth n l d).
Proof.
  revert n. induction l as [|y l IH]; intros [|n] H; simpl in *; try lia.
  - reflexivity.
  - apply IH. lia.
Qed.

Lemma match_pairs_from_filter (accepted : list string) (rows_055 : list xls_row) :
  forall (rows_555 : list xls_row) (idx : nat),
  Forall (fun r => (7 <= List.length r)%nat) rows_555 ->
  (List.length rows_555 + idx <= List.length rows_055)%nat ->
  let kept := filter (pair_kept accepted) (combine rows_555 (skipn idx rows_055)) in
  match_pairs_from accepted rows_055 idx rows_555 = Some (map fst kept, map snd kept).
Proof.
  induction rows_555 as [|r5 rest IH]; intros idx H7 Hlen; [reflexivity|].
  inversion H7 as [|? ? Hr5 Hrest]; subst. simpl in Hlen.
  destruct (nth_error rows_055 idx) as [r0|] eqn:E0.
  2:{ apply nth_error_None in E0. lia. }
  cbv zeta. cbn [match_pairs_from].
  rewrite (nth_error_nth_some r5 6 "") by lia.
  rewrite (skipn_nth_error _ _ _ E0).
  specialize (IH (S idx) Hrest ltac:(lia)). cbv zeta in IH.
  revert IH. generalize (skipn (S idx) rows_055). intros T IH.
  assert (Ek : pair_kept accepted (r5, r0) = Py.mem (last_token (nth 6 r5 "")) accepted)
    by reflexivity.
  cbn [combine filter]. rewrite Ek.
  destruct (Py.mem (last_token (nth 6 r5 "")) accepted) eqn:Em.
  - rewrite E0, IH. reflexivity.
  - exact IH.
Qed.

(** C4: with a ledger whose 555 block and 055 block have equal length (and
    whose 555 rows have the 7 columns of a full batch), reconciliation
    against any accepted set never fails: it keeps exactly the pairs
    (555 row i, 055 row i) whose cheque number, the last whitespace token of
    the 555 row's description 2, is in the accepted set, in input order
    (a filter of the input pairs). *)
Theorem C4_reconcile_is_filter (accepted : list string) (rows_555 rows_055 : list xls_row)
  (H7 : Forall (fun r => (7 <= List.length r)%nat) rows_555)
  (Hlen : List.length rows_555 = List.length rows_055) :
  let kept := filter (pair_kept accepted) (combine rows_555 rows_055) in
  match_pairs accepted rows_555 rows_055 = Some (map fst kept, map snd kept)
  /\ (forall p, In p kept
                <-> In p (combine rows_555 rows_055) /\ In (debit_cheque_number (fst p)) accepted).
Proof.
  cbv zeta. split.
  - unfold match_pairs.
    pose proof (match_pairs_from_filter accepted rows_055 rows_555 0 H7 ltac:(lia)) as H.
    cbv zeta in H. rewrite skipn_O in H. exact H.
  - intros p. rewrite filter_In. unfold pair_kept. rewrite mem_In. reflexivity.
Qed.

Definition ex_row_555 : xls_row :=
  ["987"; "98765432109876"; "555"; "50000.0"; "50000.0"; ""; "CLG CITIZENS 1234567"].

Definition ex_row_055 : xls_row :=
  ["255"; "9313102000"; "055"; "-50000.0"; "-50000.0"; "CLG TFR 98765432109876";
   "CITIZENS 12345678"].

Lemma C4_reconcile_is_filter_witness :
  Forall (fun r => (7 <= List.length r)%nat) [ex_row_555]
  /\ List.length [ex_row_555] = List.length [ex_row_055]
  /\ (let kept := filter (pair_kept ["1234567"]) (combine [ex_row_555] [ex_row_055]) in
      match_pairs ["1234567"] [ex_row_555] [ex_row_055] = Some (map fst kept, map snd kept)
      /\ (forall p, In p kept
                    <-> In p (combine [ex_row_555] [ex_row_055])
                        /\ In (debit_cheque_number (fst p)) ["1234567"])).
Proof.
  assert (H7 : Forall (fun r => (7 <= List.length r)%nat) [ex_row_555])
    by (constructor; [simpl; lia | constructor]).
  assert (Hlen : List.length [ex_row_555] = List.length [ex_row_055]) by reflexivity.
  split; [exact H7|]. split; [exact Hlen|].
  exact (C4_reconcile_is_filter ["1234567"] [ex_row_555] [ex_row_055] H7 Hlen).
Defined.

Lemma split_by_trancode_filter (rows : list xls_row) :
  Forall (fun r => (3 <= List.length r)%nat) rows ->
  split_by_trancode rows
  = Some (filter (has_trancode "555") rows, filter (has_trancode "055") rows).
Proof.
  induction rows as [|r rows IH]; intros H3; [reflexivity|].
  inversion H3 as [|? ? Hr Hrows]; subst.
  cbn [split_by_trancode filter].
  rewrite (nth_error_nth_some r 2 "") by lia.
  rewrite (IH Hrows). unfold has_trancode.
  destruct (String.eqb (Py.strip (nth 2 r "")) "555") eqn:E5.
  - apply String.eqb_eq in E5. rewrite E5. reflexivity.
  - destruct (String.eqb (Py.strip (nth 2 r "")) "055"); reflexivity.
Qed.

Lemma write_final_not_struct (headers : xls_row) (k5 k0 : list xls_row) (n m : nat) :
  write_final headers k5 k0 <> FStructErr n m.
Proof.
  unfold write_final. destruct k5; [discriminate|].
  destruct (_ && _); discriminate.
Qed.

(** A record of the report that was not accepted. *)
Definition ex_rejected : cheque_record :=
  mk_record "98765432109876" 50000 "CITIZENS" "12345678" "1234567" "255"
            "INSUFFICIENT FUNDS".

(** C5 (refuted): a ledger with one 555 row and no 055 row, reconciled
    against a report with no accepted cheque, is reported as "no accepted
    cheques", not as a structural mismatch. *)
Lemma C5_counterexample :
  List.length (filter (has_trancode "555") [ex_row_555])
  <> List.length (filter (has_trancode "055") [ex_row_555])
  /\ generate_final_batch [ex_rejected] (batch_headers :: [ex_row_555]) = FNoAccepted.
Proof. vm_compute. split; [discriminate | reflexivity]. Qed.

(** C5 (amended): when the report yields records and every data row of
    the ledger has a TRANCODE column: if at least one cheque number is
    accepted, reconciliation ends with the structural-mismatch error (and
    no output) exactly when the numbers of 555 rows and 055 rows differ,
    the error carries the two counts, and a mismatch is then never
    reported as "no matches"; if no cheque number is accepted, the answer
    is "no accepted cheques" whatever the ledger holds, so that error comes
    first. *)
Theorem C5_struct_mismatch (extracted : list cheque_record) (headers : xls_row)
  (rows : list xls_row)
  (Hdata : extracted <> [])
  (H3 : Forall (fun r => (3 <= List.length r)%nat) rows) :
  (accepted_cheque_numbers extracted <> [] ->
   let c555 := List.length (filter (has_trancode "555") rows) in
   let c055 := List.length (filter (has_trancode "055") rows) in
   (forall n m, generate_final_batch extracted (headers :: rows) = FStructErr n m
                <-> n = c555 /\ m = c055 /\ c555 <> c055)
   /\ (c555 <> c055 -> generate_final_batch extracted (headers :: rows) = FStructErr c555 c055))
  /\ (accepted_cheque_numbers extracted = [] ->
      forall sheet : list xls_row, generate_final_batch extracted sheet = FNoAccepted).
Proof.
  split.
  2:{ intros Ha sheet. unfold generate_final_batch.
      destruct extracted as [|d ds]; [congruence|]. cbv zeta. rewrite Ha. reflexivity. }
  intros Hacc.
  cbv zeta. unfold generate_final_batch.
  destruct extracted as [|d ds]; [congruence|]. cbv zeta.
  destruct (accepted_cheque_numbers (d :: ds)) as [|a acc] eqn:Ea; [congruence|].
  rewrite (split_by_trancode_filter rows H3).
  destruct (Nat.eqb (List.length (filter (has_trancode "555") rows))
                    (List.length (filter (has_trancode "055") rows))) eqn:Eq;
    cbn [negb].
  - apply Nat.eqb_eq in Eq. split.
    + intros n m. split.
      * destruct (match_pairs _ _ _) as [[k5 k0]|]; intros H.
        -- exfalso. exact (write_final_not_struct _ _ _ _ _ H).
        -- discriminate.
      * intros [_ [_ Hne]]. contradiction.
    + intros Hne. contradiction.
  - apply Nat.eqb_neq in Eq. split.
    + intros n m. split.
      * intros H. injection H as <- <-. auto.
      * intros [-> [-> _]]. reflexivity.
    + intros _. reflexivity.
Qed.

Lemma C5_struct_mismatch_witness :
  [ex_record] <> []
  /\ Forall (fun r => (3 <= List.length r)%nat) [ex_row_555]
  /\ ((accepted_cheque_numbers [ex_record] <> [] ->
       let c555 := List.length (filter (has_trancode "555") [ex_row_555]) in
       let c055 := List.length (filter (has_trancode "055") [ex_row_555]) in
       (forall n m, generate_final_batch [ex_record] (batch_headers :: [ex_row_555])
                    = FStructErr n m
                    <-> n = c555 /\ m = c055 /\ c555 <> c055)
       /\ (c555 <> c055 ->
           generate_final_batch [ex_record] (batch_headers :: [ex_row_555])
           = FStructErr c555 c055))
      /\ (accepted_cheque_numbers [ex_record] = [] ->
          forall sheet : list xls_row,
          generate_final_batch [ex_record] sheet = FNoAccepted)).
Proof.
  assert (Hd : [ex_record] <> []) by discriminate.
  assert (H3 : Forall (fun r => (3 <= List.length r)%nat) [ex_row_555])
    by (constructor; [simpl; lia | constructor]).
  split; [exact Hd|]. split; [exact H3|].
  exact (C5_struct_mismatch [ex_record] batch_headers [ex_row_555] Hd H3).
Defined.

(** ** Table-mode amount extraction *)

(** The report row of the specification's scenario, with amount cell
    [amount] in column 13 and disposition [reason] in column 14. *)
Definition ex_table_row (amount reason : string) : Table.row :=
  map Some ["1"; ""; ""; ""; ""; ""; "1234567"; "255"; ""; "98765432109876"; "";
            "CITIZE"; "12345678"; amount; reason].

Example extract_scenario_row :
  Table.extract_from_table [[ex_table_row "50,000.00" "INSUFFICIENT FUNDS"]]
  = [mk_record "98765432109876" 50000.00 "CITIZENS" "12345678" "1234567" "255"
               "INSUFFICIENT FUNDS"].
Proof. vm_compute. reflexivity. Qed.

(** C7 (refuted): the primary column is also taken when it holds bare
    digits without separator ("500"), and a value of 100,000,000 is
    returned from it. *)
Lemma C7_counterexample :
  Table.has_sep "500" = false
  /\ Table.amount_primary (ex_table_row "500" "ACCEPTED") = Some 500%Q
  /\ Table.extract_amount (ex_table_row "500" "ACCEPTED") = Some 500%Q
  /\ Table.extract_amount (ex_table_row "100,000,000.00" "ACCEPTED")
     = Some 100000000.00%Q.
Proof. vm_compute. repeat split. Qed.

(** C7 (amended): the amount extractor takes the value of the primary
    column 13 only if, once stripped, it contains a comma or a decimal
    point or is all digits, consists after removing commas only of digits,
    '.' and '-', and parses as a float; the amount it then returns is that
    parsed number, strictly positive. *)
Theorem C7_primary_amount (r : Table.row) (amt : Q)
  (Hprim : Table.amount_primary r = Some amt) :
  Table.extract_amount r = Some amt
  /\ exists c, Table.cell_at r 13 = Some c
     /\ (Table.has_sep (Py.strip c) || Py.isdigit (Py.strip c)) = true
     /\ Table.amount_shape (Py.remove_char "," (Py.strip c)) = true
     /\ PyFloat.parse (Py.remove_char "," (Py.strip c)) = Some amt
     /\ (0 < amt)%Q.
Proof.
  split; [unfold Table.extract_amount; rewrite Hprim; reflexivity|].
  unfold Table.amount_primary in Hprim.
  destruct (Table.cell_at r 13) as [c|]; [|discriminate].
  exists c. split; [reflexivity|].
  destruct (Table.has_sep (Py.strip c) || Py.isdigit (Py.strip c)); [|discriminate].
  destruct (Table.amount_shape (Py.remove_char "," (Py.strip c))); [|discriminate].
  destruct (PyFloat.parse (Py.remove_char "," (Py.strip c))) as [a|]; [|discriminate].
  destruct (Qgtb a 0) eqn:Ea; [|discriminate].
  injection Hprim as <-. apply Qgtb_spec in Ea. auto.
Qed.

Lemma C7_primary_amount_witness :
  Table.amount_primary (ex_table_row "50,000.00" "ACCEPTED") = Some 50000.00%Q
  /\ Table.extract_amount (ex_table_row "50,000.00" "ACCEPTED") = Some 50000.00%Q
  /\ exists c, Table.cell_at (ex_table_row "50,000.00" "ACCEPTED") 13 = Some c
     /\ (Table.has_sep (Py.strip c) || Py.isdigit (Py.strip c)) = true
     /\ Table.amount_shape (Py.remove_char "," (Py.strip c)) = true
     /\ PyFloat.parse (Py.remove_char "," (Py.strip c)) = Some 50000.00%Q
     /\ (0 < 50000.00)%Q.
Proof.
  assert (H : Table.amount_primary (ex_table_row "50,000.00" "ACCEPTED") = Some 50000.00%Q)
    by (vm_compute; reflexivity).
  split; [exact H|].
  exact (C7_primary_amount (ex_table_row "50,000.00" "ACCEPTED") 50000.00 H).
Defined.

(** C2 (code defect): a well-formed report row whose amount column reads
    100,000,000.00 yields a record with cheque_amount = 100,000,000, outside
    the bound 0 < amount < 100,000,000 that the fallback scan enforces. *)
Theorem C2_amount_bound_failing_input :
  Table.extract_from_table [[ex_table_row "100,000,000.00" "ACCEPTED"]]
  = [mk_record "98765432109876" 100000000.00 "CITIZENS" "12345678" "1234567" "255"
               "ACCEPTED"]
  /\ ~ (100000000.00 < 100000000)%Q
  /\ Table.in_bounds 100000000.00 = false.
Proof.
  split; [vm_compute; reflexivity|].
  split; [vm_compute; discriminate | vm_compute; reflexivity].
Qed.

(* ================================================================== *)
(** * Further properties of the code *)

(** ** Records emitted by extraction *)

(** The field shapes every extracted record has. *)
Definition record_ok (r : cheque_record) : Prop :=
  Table.bfd_shape (bfd_account r) = true
  /\ Table.cheque_shape (cheque_number r) = true
  /\ (0 < cheque_amount r)%Q
  /\ Py.isdigit (branch_code r) = true /\ String.length (branch_code r) = 3%nat
  /\ pay_bank_name r <> ""
  /\ (pay_account r = ""
      \/ (Py.isdigit (pay_account r) = true /\ (8 <= String.length (pay_account r))%nat)).

Definition acct_ok (o : option string) : Prop :=
  forall a, o = Some a -> Py.isdigit a = true /\ (8 <= String.length a)%nat.

Definition branch_ok (o : option string) : Prop :=
  forall b, o = Some b -> Py.isdigit b = true /\ String.length b = 3%nat.

Lemma or_default_spec (o : option string) (d : string) :
  Py.or_default o d = d \/ (o = Some (Py.or_default o d) /\ Py.or_default o d <> "").
Proof.
  destruct o as [s|]; simpl; [|left; reflexivity].
  destruct (String.eqb s "") eqn:E; [left; reflexivity|].
  right. split; [reflexivity|]. intros ->. discriminate.
Qed.

Lemma or_default_nonempty (o : option string) (d : string) :
  d <> "" -> Py.or_default o d <> "".
Proof. intros Hd. destruct (or_default_spec o d) as [-> | [_ H]]; assumption. Qed.

Lemma or_default_account (o : option string) :
  acct_ok o ->
  Py.or_default o "" = ""
  \/ (Py.isdigit (Py.or_default o "") = true /\ (8 <= String.length (Py.or_default o ""))%nat).
Proof.
  intros H. destruct (or_default_spec o "") as [E | [E _]]; [left; exact E|].
  right. apply H. exact E.
Qed.

Lemma or_default_branch (o : option string) :
  branch_ok o ->
  Py.isdigit (Py.or_default o "255") = true /\ String.length (Py.or_default o "255") = 3%nat.
Proof.
  intros H. destruct (or_default_spec o "255") as [E | [E _]].
  - rewrite E. split; reflexivity.
  - apply H. exact E.
Qed.

Lemma fold_pick_In {A : Type} (f : A -> A -> bool) (rest : list A) :
  forall c, In (fold_left (fun best x => if f x best then x else best) rest c) (c :: rest).
Proof.
  induction rest as [|x rest IH]; intros c; simpl; [left; reflexivity|].
  destruct (f x c).
  - specialize (IH x). destruct IH as [<- | H]; [right; left; reflexivity | right; right; exact H].
  - specialize (IH c). destruct IH as [<- | H]; [left; reflexivity | right; right; exact H].
Qed.

Lemma bfd_candidates_shape (cells : Table.row) :
  forall i l j s, In (l, j, s) (Table.bfd_candidates i cells) -> Table.bfd_shape s = true.
Proof.
  induction cells as [|c cells IH]; intros i l j s H; simpl in H; [contradiction|].
  destruct (Py.cell_truthy c) as [t|]; [|eapply IH; exact H].
  destruct (Table.bfd_shape (Py.strip t)) eqn:E; [|eapply IH; exact H].
  destruct H as [H | H]; [injection H as _ _ <-; exact E | eapply IH; exact H].
Qed.

Lemma table_bfd_shape (r : Table.row) (b : string) :
  Table.extract_bfd_account r = Some b -> Table.bfd_shape b = true.
Proof.
  assert (Hfb : Table.best_candidate (Table.bfd_candidates 0 r) = Some b ->
                Table.bfd_shape b = true).
  { unfold Table.best_candidate.
    destruct (Table.bfd_candidates 0 r) as [|c rest] eqn:Ec; [discriminate|].
    pose proof (fold_pick_In Table.bfd_key_gt rest c) as Hin.
    destruct (fold_left _ rest c) as [[l j] s].
    intros H. injection H as <-. rewrite <- Ec in Hin.
    eapply bfd_candidates_shape. exact Hin. }
  unfold Table.extract_bfd_account.
  destruct (Table.cell_at r 9) as [c|]; [|exact Hfb].
  destruct (Table.bfd_shape (Py.strip c)) eqn:E; [|exact Hfb].
  intros H. injection H as <-. exact E.
Qed.

Lemma cheque_scan_shape (cells : Table.row) (n : string) :
  Table.cheque_scan cells = Some n -> Table.cheque_shape n = true.
Proof.
  induction cells as [|c cells IH]; simpl; [discriminate|].
  destruct (Py.cell_truthy c) as [t|]; [|exact IH].
  destruct (Table.cheque_shape (Py.strip t)) eqn:E; [|exact IH].
  intros H. injection H as <-. exact E.
Qed.

Lemma table_cheque_shape (r : Table.row) (n : string) :
  Table.extract_cheque_number r = Some n -> Table.cheque_shape n = true.
Proof.
  unfold Table.extract_cheque_number.
  destruct (Table.cell_at r 6) as [c|]; [|apply cheque_scan_shape].
  destruct (Table.cheque_shape (Py.strip c)) eqn:E; [|apply cheque_scan_shape].
  intros H. injection H as <-. exact E.
Qed.

Lemma in_bounds_spec (a : Q) :
  Table.in_bounds a = true -> (0 < a)%Q /\ (a < 100000000)%Q.
Proof.
  unfold Table.in_bounds. rewrite andb_true_iff, !Qgtb_spec. auto.
Qed.

Lemma amount_scan_bounds (cells : Table.row) (a : Q) :
  Table.amount_scan cells = Some a -> (0 < a)%Q /\ (a < 100000000)%Q.
Proof.
  induction cells as [|c cells IH]; simpl; [discriminate|].
  destruct (Py.cell_truthy c) as [t|]; [|exact IH].
  destruct (Table.has_sep (Py.strip t)).
  - destruct (Table.amount_shape _); [|exact IH].
    destruct (PyFloat.parse _) as [x|]; [|exact IH].
    destruct (Table.in_bounds x) eqn:E; [|exact IH].
    intros H. injection H as <-. apply in_bounds_spec. exact E.
  - destruct (Py.isdigit (Py.strip t) && _); [|exact IH].
    destruct (PyFloat.parse _) as [x|]; [|exact IH].
    destruct (Table.in_bounds x) eqn:E; [|exact IH].
    intros H. injection H as <-. apply in_bounds_spec. exact E.
Qed.

Lemma table_amount_pos (r : Table.row) (a : Q) :
  Table.extract_amount r = Some a -> (0 < a)%Q.
Proof.
  unfold Table.extract_amount.
  destruct (Table.amount_primary r) as [x|] eqn:Ep.
  - intros H. injection H as <-. revert Ep. unfold Table.amount_primary.
    destruct (Table.cell_at r 13) as [c|]; [|discriminate].
    destruct (_ || _); [|discriminate].
    destruct (Table.amount_shape _); [|discriminate].
    destruct (PyFloat.parse _) as [y|]; [|discriminate].
    destruct (Qgtb y 0) eqn:Ey; [|discriminate].
    intros Hy. injection Hy as <-. apply Qgtb_spec. exact Ey.
  - intros H. apply amount_scan_bounds in H. apply H.
Qed.

Lemma branch_scan_ok (cells : Table.row) : branch_ok (Table.branch_scan cells).
Proof.
  induction cells as [|c cells IH]; intros b; simpl; [discriminate|].
  destruct (Py.cell_truthy c) as [t|]; [|apply IH].
  destruct (Py.isdigit (Py.strip t) && _ && _) eqn:E; [|apply IH].
  intros H. injection H as <-.
  apply andb_true_iff in E as [E _]. apply andb_true_iff in E as [E1 E2].
  split; [exact E1 | apply Nat.eqb_eq; exact E2].
Qed.

Lemma table_branch_ok (r : Table.row) : branch_ok (Table.extract_branch_code r).
Proof.
  unfold Table.extract_branch_code.
  destruct (Table.cell_at r 7) as [c|]; [|apply branch_scan_ok].
  destruct (Py.isdigit (Py.strip c) && _) eqn:E; [|apply branch_scan_ok].
  intros b H. injection H as <-.
  apply andb_true_iff in E as [E1 E2]. split; [exact E1 | apply Nat.eqb_eq; exact E2].
Qed.

Lemma account_at_ok (r : Table.row) (i : nat) : acct_ok (Table.account_at r i).
Proof.
  intros a. unfold Table.account_at.
  destruct (Table.cell_at r i) as [c|]; [|discriminate].
  destruct (Py.isdigit (Py.strip c) && _) eqn:E; [|discriminate].
  intros H. injection H as <-.
  apply andb_true_iff in E as [E1 E2]. split; [exact E1 | apply Nat.leb_le; exact E2].
Qed.

Lemma bank_scan_acct_ok (r : Table.row) (cells : Table.row) :
  forall i pa, acct_ok pa -> acct_ok (snd (Table.bank_scan r i cells pa)).
Proof.
  induction cells as [|c cells IH]; intros i pa Hpa; simpl; [exact Hpa|].
  destruct (Py.cell_truthy c) as [t|]; [|apply IH; exact Hpa].
  destruct (_ && _ && _ && _); [|apply IH; exact Hpa].
  destruct (Table.cell_at r (S i)) as [nc|]; [|apply IH; exact Hpa].
  destruct (_ && _); [|apply IH; exact Hpa].
  simpl. destruct (Table.account_at r (i + 2)) as [a|] eqn:Ea; [|exact Hpa].
  rewrite <- Ea. apply account_at_ok.
Qed.

Lemma table_bank_acct_ok (r : Table.row) : acct_ok (snd (Table.extract_bank_info r)).
Proof.
  unfold Table.extract_bank_info.
  destruct (Table.bank_primary r) as [n|];
    [destruct (String.eqb n "")|]; simpl;
    try apply bank_scan_acct_ok; apply account_at_ok.
Qed.

Lemma table_row_ok (r : Table.row) (rec : cheque_record) :
  Table.extract_row r = Some rec -> record_ok rec.
Proof.
  unfold Table.extract_row. cbv zeta.
  destruct (_ <? 9)%nat; [discriminate|].
  destruct (Py.mem _ _); [discriminate|].
  destruct (_ || _); [discriminate|].
  pose proof (table_bank_acct_ok r) as Ha.
  destruct (Table.extract_bank_info r) as [pbn pa]. simpl in Ha.
  destruct (Table.extract_bfd_account r) as [b|] eqn:E1; [|discriminate].
  destruct (Table.extract_amount r) as [a|] eqn:E2; [|discriminate].
  destruct (Table.extract_cheque_number r) as [n|] eqn:E3; [|discriminate].
  destruct (_ && _ && _); [|discriminate].
  intros H. injection H as <-.
  unfold record_ok; cbn [bfd_account cheque_number cheque_amount branch_code
                          pay_bank_name pay_account].
  pose proof (or_default_branch _ (table_branch_ok r)) as [Hb1 Hb2].
  split; [exact (table_bfd_shape r b E1)|].
  split; [exact (table_cheque_shape r n E3)|].
  split; [exact (table_amount_pos r a E2)|].
  split; [exact Hb1|]. split; [exact Hb2|].
  split; [apply or_default_nonempty; discriminate|].
  apply or_default_account. exact Ha.
Qed.

Lemma Forall_flat_map {A B : Type} (P : B -> Prop) (f : A -> list B) (l : list A) :
  (forall x, In x l -> Forall P (f x)) -> Forall P (flat_map f l).
Proof.
  induction l as [|x l IH]; intros H; simpl; [constructor|].
  apply Forall_app. split; [apply H; left; reflexivity|].
  apply IH. intros y Hy. apply H. right. exact Hy.
Qed.

Lemma Forall_option_list {B : Type} (P : B -> Prop) (o : option B) :
  (forall x, o = Some x -> P x) -> Forall P (match o with Some x => [x] | None => [] end).
Proof. destruct o as [x|]; intros H; [constructor; [apply H; reflexivity | constructor] | constructor]. Qed.

(** *** Text mode *)

Lemma text_bfd_shape (parts : list string) (b : string) :
  Text.extract_bfd_account_from_parts parts = Some b -> Table.bfd_shape b = true.
Proof.
  unfold Text.extract_bfd_account_from_parts.
  destruct (filter Table.bfd_shape parts) as [|c rest] eqn:Ef; [discriminate|].
  intros H. injection H as <-.
  pose proof (fold_pick_In Text.cand_gt rest c) as Hin. rewrite <- Ef in Hin.
  apply filter_In in Hin. apply Hin.
Qed.

Lemma text_cheque_shape (parts : list string) (n : string) :
  Text.extract_cheque_number_from_parts parts = Some n -> Table.cheque_shape n = true.
Proof. apply find_some. Qed.

Lemma text_branch_ok (parts : list string) :
  branch_ok (Text.extract_branch_code_from_parts parts).
Proof.
  intros b H. apply find_some in H as [_ H].
  apply andb_true_iff in H as [H _]. apply andb_true_iff in H as [H1 H2].
  split; [exact H1 | apply Nat.eqb_eq; exact H2].
Qed.

Lemma amount_sep_scan_bounds (ps : list string) (a : Q) :
  Text.amount_sep_scan ps = Some a -> (0 < a)%Q /\ (a < 100000000)%Q.
Proof.
  induction ps as [|p ps IH]; simpl; [discriminate|].
  destruct (Table.has_sep p); [|exact IH].
  destruct (Table.amount_shape _); [|exact IH].
  destruct (PyFloat.parse _) as [x|]; [|exact IH].
  destruct (Table.in_bounds x) eqn:E; [|exact IH].
  intros H. injection H as <-. apply in_bounds_spec. exact E.
Qed.

Lemma amount_digit_scan_bounds (ps : list string) (a : Q) :
  Text.amount_digit_scan ps = Some a -> (0 < a)%Q /\ (a < 100000000)%Q.
Proof.
  induction ps as [|p ps IH]; simpl; [discriminate|].
  destruct (_ && _); [|exact IH].
  destruct (PyFloat.parse _) as [x|]; [|exact IH].
  destruct (Table.in_bounds x) eqn:E; [|exact IH].
  intros H. injection H as <-. apply in_bounds_spec. exact E.
Qed.

Lemma text_amount_bounds (parts : list string) (a : Q) :
  Text.extract_amount_from_parts parts = Some a -> (0 < a)%Q /\ (a < 100000000)%Q.
Proof.
  unfold Text.extract_amount_from_parts.
  destruct (Text.amount_sep_scan (rev parts)) as [x|] eqn:E.
  - intros H. injection H as <-. eapply amount_sep_scan_bounds. exact E.
  - apply amount_digit_scan_bounds.
Qed.

Lemma text_bank_acct_ok (parts : list string) (idx : nat) (lines : list string) :
  acct_ok (snd (Text.extract_bank_info_from_parts parts idx lines)).
Proof.
  intros a. unfold Text.extract_bank_info_from_parts.
  destruct (Text.bank_scan _ 0 parts) as [[i name]|]; [|discriminate].
  destruct (nth_error parts (S i)) as [np|]; [|discriminate].
  destruct (Py.isdigit np && _) eqn:E; [|discriminate].
  simpl. intros H. injection H as <-.
  apply andb_true_iff in E as [E1 E2]. split; [exact E1 | apply Nat.leb_le; exact E2].
Qed.

Lemma text_line_ok (lines : list string) (idx : nat) (line : string) (rec : cheque_record) :
  Text.extract_line lines idx line = Some rec ->
  record_ok rec /\ (cheque_amount rec < 100000000)%Q.
Proof.
  unfold Text.extract_line. cbv zeta.
  destruct (_ <? 9)%nat; [discriminate|].
  destruct (negb _); [discriminate|].
  pose proof (text_bank_acct_ok (Py.split line) idx lines) as Ha.
  destruct (Text.extract_bank_info_from_parts _ idx lines) as [pbn pa]. simpl in Ha.
  destruct (Text.extract_bfd_account_from_parts _) as [b|] eqn:E1; [|discriminate].
  destruct (Text.extract_amount_from_parts _) as [a|] eqn:E2; [|discriminate].
  destruct (Text.extract_cheque_number_from_parts _) as [n|] eqn:E3; [|discriminate].
  destruct (_ && _ && _); [|discriminate].
  intros H. injection H as <-.
  unfold record_ok; cbn [bfd_account cheque_number cheque_amount branch_code
                          pay_bank_name pay_account].
  pose proof (or_default_branch _ (text_branch_ok (Py.split line))) as [Hb1 Hb2].
  pose proof (text_amount_bounds _ a E2) as [Hp Hu].
  split; [|exact Hu].
  split; [exact (text_bfd_shape _ b E1)|].
  split; [exact (text_cheque_shape _ n E3)|].
  split; [exact Hp|].
  split; [exact Hb1|]. split; [exact Hb2|].
  split; [apply or_default_nonempty; discriminate|].
  apply or_default_account. exact Ha.
Qed.

Lemma text_lines_ok (lines : list string) (rest : list string) :
  forall idx, Forall (fun r => record_ok r /\ (cheque_amount r < 100000000)%Q)
                     (Text.extract_lines lines idx rest).
Proof.
  induction rest as [|line rest IH]; intros idx; simpl; [constructor|].
  destruct (Text.extract_line lines idx line) as [r|] eqn:E; [|apply IH].
  constructor; [exact (text_line_ok _ _ _ _ E) | apply IH].
Qed.

Lemma table_records_all_ok (tables : list (list Table.row)) :
  Forall record_ok (Table.extract_from_table tables).
Proof.
  unfold Table.extract_from_table.
  apply Forall_flat_map. intros table _.
  apply Forall_flat_map. intros r _.
  apply Forall_option_list. apply table_row_ok.
Qed.

Lemma text_records_all_ok (text : option string) :
  Forall (fun r => record_ok r /\ (cheque_amount r < 100000000)%Q)
         (Text.extract_from_text text).
Proof.
  unfold Text.extract_from_text.
  destruct (Py.cell_truthy text) as [t|]; [apply text_lines_ok | constructor].
Qed.

(** X1: every record [_extract_from_table] appends has a 12-17 digit BFD
    account, a 6-10 digit cheque number, a positive amount, a 3-digit branch
    code, a non-empty pay bank name, and a pay account that is empty or has
    at least 8 digits. *)
Theorem table_records_ok (tables : list (list Table.row)) :
  Forall record_ok (Table.extract_from_table tables).
Proof. apply table_records_all_ok. Qed.

(** X2: every record [_extract_from_text] appends has the same field
    shapes, and its amount is below 100,000,000. *)
Theorem text_records_ok (text : option string) :
  Forall (fun r => record_ok r /\ (cheque_amount r < 100000000)%Q)
         (Text.extract_from_text text).
Proof. apply text_records_all_ok. Qed.

(** X3: every record of [extract_pdf_data], whichever mode each page went
    through, has these field shapes. *)
Theorem pdf_records_ok (pages : list page) :
  Forall record_ok (extract_pdf_data pages).
Proof.
  unfold extract_pdf_data. apply Forall_flat_map. intros p _.
  unfold extract_page. destruct (page_tables p) as [|t ts].
  - eapply Forall_impl; [|apply text_records_all_ok]. intros r [H _]. exact H.
  - apply table_records_all_ok.
Qed.

Lemma fold_cand_longest (rest : list string) :
  forall c,
  let m := fold_left (fun best x => if Text.cand_gt x best then x else best) rest c in
  (String.length c <= String.length m)%nat
  /\ forall x, In x rest -> (String.length x <= String.length m)%nat.
Proof.
  induction rest as [|x rest IH]; intros c; simpl; [split; [lia | contradiction]|].
  set (c' := if Text.cand_gt x c then x else c).
  destruct (IH c') as [H1 H2].
  assert (Hc : (String.length c <= String.length c')%nat
               /\ (String.length x <= String.length c')%nat).
  { unfold c', Text.cand_gt.
    destruct (String.length c <? String.length x)%nat eqn:E; simpl.
    - apply Nat.ltb_lt in E. lia.
    - apply Nat.ltb_ge in E.
      destruct ((String.length x =? String.length c)%nat && _) eqn:E2.
      + apply andb_true_iff in E2 as [E2 _]. apply Nat.eqb_eq in E2. lia.
      + lia. }
  split; [lia|]. intros y [<- | Hy]; [lia | apply H2; exact Hy].
Qed.

(** X4: the text-mode BFD account is a 12-17 digit token of the line, and
    no 12-17 digit token of the line is longer. *)
Theorem text_bfd_longest (parts : list string) (b : string)
  (H : Text.extract_bfd_account_from_parts parts = Some b) :
  Table.bfd_shape b = true /\ In b parts
  /\ forall p, In p parts -> Table.bfd_shape p = true ->
               (String.length p <= String.length b)%nat.
Proof.
  unfold Text.extract_bfd_account_from_parts in H.
  destruct (filter Table.bfd_shape parts) as [|c rest] eqn:Ef; [discriminate|].
  injection H as <-.
  pose proof (fold_pick_In Text.cand_gt rest c) as Hin. rewrite <- Ef in Hin.
  apply filter_In in Hin as [Hin Hs].
  split; [exact Hs|]. split; [exact Hin|].
  intros p Hp Hps.
  assert (Hpf : In p (c :: rest)) by (rewrite <- Ef; apply filter_In; auto).
  destruct (fold_cand_longest rest c) as [H1 H2].
  destruct Hpf as [<- | Hpf]; [exact H1 | apply H2; exact Hpf].
Qed.

Lemma text_bfd_longest_witness :
  Text.extract_bfd_account_from_parts ["123456789012"; "CITIZENS"; "12345678901234"]
  = Some "12345678901234"
  /\ (Table.bfd_shape "12345678901234" = true
      /\ In "12345678901234" ["123456789012"; "CITIZENS"; "12345678901234"]
      /\ forall p, In p ["123456789012"; "CITIZENS"; "12345678901234"] ->
                   Table.bfd_shape p = true ->
                   (String.length p <= String.length "12345678901234")%nat).
Proof.
  assert (H : Text.extract_bfd_account_from_parts ["123456789012"; "CITIZENS"; "12345678901234"]
              = Some "12345678901234") by reflexivity.
  split; [exact H|]. exact (text_bfd_longest _ _ H).
Defined.

(** ** Strings of the generated DESC2 column *)

Definition no_space (s : string) : bool := Py.all_chars (fun c => negb (Py.is_space c)) s.

Lemma all_chars_impl (p q : ascii -> bool) (s : string) :
  (forall c, p c = true -> q c = true) -> Py.all_chars p s = true -> Py.all_chars q s = true.
Proof.
  intros Hpq. induction s as [|c s IH]; simpl; [auto|].
  rewrite !andb_true_iff. intros [H1 H2]. split; [apply Hpq; exact H1 | apply IH; exact H2].
Qed.

Lemma digit_not_space (c : ascii) : Py.is_digit c = true -> negb (Py.is_space c) = true.
Proof.
  unfold Py.is_digit, Py.is_space. set (n := nat_of_ascii c).
  rewrite andb_true_iff, !Nat.leb_le. intros [H1 H2].
  apply negb_true_iff, orb_false_iff. split; apply andb_false_iff; right; apply Nat.leb_gt; lia.
Qed.

Lemma isdigit_word (s : string) : Py.isdigit s = true -> no_space s = true /\ s <> "".
Proof.
  unfold Py.isdigit. rewrite andb_true_iff, negb_true_iff. intros [H1 H2]. split.
  - eapply all_chars_impl; [|exact H2]. exact digit_not_space.
  - intros ->. discriminate.
Qed.

Lemma cheque_shape_word (s : string) :
  Table.cheque_shape s = true -> no_space s = true /\ s <> "".
Proof.
  unfold Table.cheque_shape. intros H.
  apply andb_true_iff in H as [H _]. apply andb_true_iff in H as [H _].
  apply isdigit_word. exact H.
Qed.

Lemma string_app_assoc (a b c : string) : (a ++ (b ++ c))%string = ((a ++ b) ++ c)%string.
Proof. induction a as [|x a IH]; simpl; [reflexivity | rewrite IH; reflexivity]. Qed.

Lemma split_aux_word (c : string) :
  forall cur, no_space c = true -> c <> "" -> Py.split_aux cur c = [(cur ++ c)%string].
Proof.
  induction c as [|x c IH]; intros cur Hw Hne; [contradiction|].
  unfold no_space in Hw; cbn [Py.all_chars] in Hw.
  apply andb_true_iff in Hw as [Hx Hw]. apply negb_true_iff in Hx.
  cbn [Py.split_aux]. rewrite Hx.
  destruct (String.eqb c "") eqn:Ec.
  - apply String.eqb_eq in Ec. subst c. cbn [Py.split_aux].
    destruct (String.eqb (cur ++ String x "") "") eqn:E.
    + apply String.eqb_eq in E. destruct cur; discriminate.
    + reflexivity.
  - apply String.eqb_neq in Ec. rewrite IH by assumption.
    rewrite <- string_app_assoc. reflexivity.
Qed.

Lemma split_aux_app_word (s c : string) :
  no_space c = true -> c <> "" ->
  forall cur, Py.split_aux cur (s ++ String " " c) = Py.split_aux cur s ++ [c].
Proof.
  intros Hw Hne. induction s as [|x s IH]; intros cur.
  - cbn [append Py.split_aux].
    change (Py.is_space " ") with true. cbv iota.
    rewrite (split_aux_word c "" Hw Hne). reflexivity.
  - cbn [append Py.split_aux].
    destruct (Py.is_space x).
    + rewrite IH, app_assoc. reflexivity.
    + apply IH.
Qed.

Lemma rstrip_word (c : string) : no_space c = true -> Py.rstrip c = c.
Proof.
  induction c as [|x c IH]; intros Hw; [reflexivity|].
  unfold no_space in Hw; cbn [Py.all_chars] in Hw.
  apply andb_true_iff in Hw as [Hx Hw]. apply negb_true_iff in Hx.
  cbn [Py.rstrip]. rewrite (IH Hw), Hx, andb_false_r. reflexivity.
Qed.

Lemma lstrip_word (c : string) : no_space c = true -> Py.lstrip c = c.
Proof.
  destruct c as [|x c]; intros Hw; [reflexivity|].
  unfold no_space in Hw; cbn [Py.all_chars] in Hw.
  apply andb_true_iff in Hw as [Hx _]. apply negb_true_iff in Hx.
  cbn [Py.lstrip]. rewrite Hx. reflexivity.
Qed.

Lemma strip_word (c : string) : no_space c = true -> Py.strip c = c.
Proof. intros Hw. unfold Py.strip. rewrite (lstrip_word c Hw). apply rstrip_word. exact Hw. Qed.

Lemma rstrip_app (s t : string) :
  Py.rstrip t <> "" -> Py.rstrip (s ++ t) = (s ++ Py.rstrip t)%string.
Proof.
  intros Ht. induction s as [|x s IH]; [reflexivity|].
  cbn [append Py.rstrip]. rewrite IH.
  destruct (String.eqb (s ++ Py.rstrip t) "") eqn:E.
  - apply String.eqb_eq in E. destruct s; [contradiction | discriminate].
  - reflexivity.
Qed.

(** The last token of a debit row's DESC2 is the cheque number. *)
Lemma last_token_debit (r : cheque_record) :
  no_space (cheque_number r) = true -> cheque_number r <> "" ->
  last_token (row_desc2 (debit_entry r)) = cheque_number r.
Proof.
  intros Hw Hne. unfold last_token, debit_entry. cbn [row_desc2].
  set (c := cheque_number r) in *. set (t := bank_tag r).
  replace ("CLG " ++ t ++ " " ++ c)%string with (("CLG " ++ t) ++ String " " c)%string
    by (rewrite <- string_app_assoc; reflexivity).
  assert (Hl : Py.lstrip (("CLG " ++ t) ++ String " " c) = (("CLG " ++ t) ++ String " " c)%string)
    by reflexivity.
  assert (Hr : Py.rstrip (String " " c) = String " " c).
  { cbn [Py.rstrip]. rewrite (rstrip_word c Hw).
    destruct (String.eqb c "") eqn:E; [apply String.eqb_eq in E; contradiction|reflexivity]. }
  unfold Py.strip. rewrite Hl, rstrip_app by (rewrite Hr; discriminate). rewrite Hr.
  unfold Py.split. rewrite (split_aux_app_word _ c Hw Hne).
  destruct (Py.split_aux "" ("CLG " ++ t) ++ [c]) eqn:E.
  - apply app_eq_nil in E as [_ E]. discriminate.
  - rewrite <- E. apply last_last.
Qed.

(** ** From the generated batch back to the reconciler *)

(** A data row of the sheet [generate_excel_batch] writes, as the reconciler
    reads it back with [ws_in.row_values(i)] and [str()]: the text cells as
    written, the numeric AMOUNT and LCYAMOUNT cells as [render] prints them. *)
Definition xls_of_row (render : Q -> string) (r : ledger_row) : xls_row :=
  [row_branch r; row_main r; row_trancode r; render (row_amount r);
   render (row_lcy_amount r); row_desc1 r; row_desc2 r].

Lemma filter_map_all {A B : Type} (f : B -> bool) (g : A -> B) (l : list A) :
  (forall x, f (g x) = true) -> filter f (map g l) = map g l.
Proof. intros H. induction l as [|x l IH]; simpl; [reflexivity|]. rewrite H, IH. reflexivity. Qed.

Lemma filter_map_none {A B : Type} (f : B -> bool) (g : A -> B) (l : list A) :
  (forall x, f (g x) = false) -> filter f (map g l) = [].
Proof. intros H. induction l as [|x l IH]; simpl; [reflexivity|]. rewrite H, IH. reflexivity. Qed.

Lemma filter_map_comm {A B : Type} (f : B -> bool) (g : A -> B) (l : list A) :
  filter f (map g l) = map g (filter (fun x => f (g x)) l).
Proof. induction l as [|x l IH]; simpl; [reflexivity|]. destruct (f (g x)); simpl; rewrite IH; reflexivity. Qed.

Lemma combine_map_same {A B C : Type} (f : A -> B) (g : A -> C) (l : list A) :
  combine (map f l) (map g l) = map (fun x => (f x, g x)) l.
Proof. induction l as [|x l IH]; simpl; [reflexivity | rewrite IH; reflexivity]. Qed.

Lemma split_generated (render : Q -> string) (data : list cheque_record) (ca cb : string) :
  split_by_trancode (map (xls_of_row render) (generate_excel_batch data ca cb))
  = Some (map (xls_of_row render) (write_debit_entries data),
          map (xls_of_row render) (write_credit_entries data ca cb)).
Proof.
  rewrite split_by_trancode_filter.
  - unfold generate_excel_batch, write_debit_entries, write_credit_entries.
    rewrite !map_map, map_app, !map_map, !filter_app.
    rewrite (filter_map_all (has_trancode "555") (fun x => xls_of_row render (debit_entry x)))
      by reflexivity.
    rewrite (filter_map_none (has_trancode "555")
               (fun x => xls_of_row render (credit_entry ca cb x))) by reflexivity.
    rewrite (filter_map_none (has_trancode "055") (fun x => xls_of_row render (debit_entry x)))
      by reflexivity.
    rewrite (filter_map_all (has_trancode "055")
               (fun x => xls_of_row render (credit_entry ca cb x))) by reflexivity.
    rewrite !app_nil_r. reflexivity.
  - apply Forall_forall. intros x Hx. apply in_map_iff in Hx as [y [<- _]]. simpl. lia.
Qed.

(** The records whose cheque number is in the accepted set. *)
Definition in_accepted_set (data : list cheque_record) (r : cheque_record) : bool :=
  Py.mem (cheque_number r) (accepted_cheque_numbers data).

Lemma match_generated (render : Q -> string) (accepted : list string)
  (data : list cheque_record) (ca cb : string) :
  Forall (fun r => Table.cheque_shape (cheque_number r) = true) data ->
  let P := fun r => Py.mem (cheque_number r) accepted in
  match_pairs accepted (map (xls_of_row render) (write_debit_entries data))
              (map (xls_of_row render) (write_credit_entries data ca cb))
  = Some (map (xls_of_row render) (write_debit_entries (filter P data)),
          map (xls_of_row render) (write_credit_entries (filter P data) ca cb)).
Proof.
  intros Hs P. unfold match_pairs.
  rewrite match_pairs_from_filter.
  - unfold write_debit_entries, write_credit_entries. rewrite !map_map.
    cbn [skipn]. rewrite combine_map_same, filter_map_comm, !map_map.
    rewrite (filter_ext_in _ P).
    + reflexivity.
    + intros r Hr. unfold pair_kept, debit_cheque_number, P. cbn [fst nth xls_of_row].
      rewrite Forall_forall in Hs. destruct (cheque_shape_word _ (Hs r Hr)) as [Hw Hne].
      rewrite (last_token_debit r Hw Hne). reflexivity.
  - apply Forall_forall. intros x Hx. apply in_map_iff in Hx as [y [<- _]]. simpl. lia.
  - unfold write_debit_entries, write_credit_entries. rewrite !length_map. lia.
Qed.

Lemma accepted_cheque_numbers_map (data : list cheque_record) :
  accepted_cheque_numbers data = map (fun r => Py.strip (cheque_number r)) (filter is_accepted data).
Proof.
  induction data as [|r data IH]; simpl; [reflexivity|].
  destruct (is_accepted r); simpl; rewrite IH; reflexivity.
Qed.

Lemma accepted_in_set (data : list cheque_record) (r : cheque_record) :
  Table.cheque_shape (cheque_number r) = true -> In r data -> is_accepted r = true ->
  in_accepted_set data r = true.
Proof.
  intros Hs Hin Ha. unfold in_accepted_set. apply mem_In.
  rewrite accepted_cheque_numbers_map. apply in_map_iff. exists r. split.
  - apply strip_word. apply cheque_shape_word. exact Hs.
  - apply filter_In. auto.
Qed.

Lemma final_batch_kept (data : list cheque_record) (ca cb : string) (render : Q -> string) :
  Forall (fun r => Table.cheque_shape (cheque_number r) = true) data ->
  Forall (fun r => PyFloat.float_ok (render (cheque_amount r))
                   && PyFloat.float_ok (render (- cheque_amount r)) = true) data ->
  filter_accepted_cheques data <> [] ->
  generate_final_batch data
    (batch_headers :: map (xls_of_row render) (generate_excel_batch data ca cb))
  = FOutput batch_headers
      (map (xls_of_row render) (write_debit_entries (filter (in_accepted_set data) data)))
      (map (xls_of_row render) (write_credit_entries (filter (in_accepted_set data) data) ca cb)).
Proof.
  intros Hs Hr Hacc.
  destruct (filter_accepted_cheques data) as [|a accs] eqn:Ea; [contradiction|].
  assert (Hain : In a data /\ is_accepted a = true).
  { apply filter_In. unfold filter_accepted_cheques in Ea. rewrite Ea. left. reflexivity. }
  destruct Hain as [Hain Ha].
  assert (Hkept : In a (filter (in_accepted_set data) data)).
  { apply filter_In. split; [exact Hain|].
    apply accepted_in_set; [rewrite Forall_forall in Hs; apply Hs|..]; assumption. }
  unfold generate_final_batch.
  destruct data as [|d0 ds] eqn:Ed; [contradiction|]. rewrite <- Ed in *.
  assert (Hne : accepted_cheque_numbers data <> []).
  { rewrite accepted_cheque_numbers_map. unfold filter_accepted_cheques in Ea. rewrite Ea.
    discriminate. }
  destruct (accepted_cheque_numbers data) as [|n ns] eqn:En; [contradiction|].
  rewrite <- En.
  rewrite split_generated.
  unfold write_debit_entries, write_credit_entries. rewrite !length_map, Nat.eqb_refl.
  cbv iota beta. simpl negb. cbv iota.
  pose proof (match_generated render (accepted_cheque_numbers data) data ca cb Hs) as Hm.
  unfold write_debit_entries, write_credit_entries in Hm. rewrite Hm.
  unfold write_final.
  destruct (filter (fun r => Py.mem (cheque_number r) (accepted_cheque_numbers data)) data)
    as [|k ks] eqn:Ek.
  { unfold in_accepted_set in Hkept. rewrite Ek in Hkept. contradiction. }
  cbn [map].
  assert (Hw : forall r, In r (k :: ks) ->
                row_writable (xls_of_row render (debit_entry r)) = true
                /\ row_writable (xls_of_row render (credit_entry ca cb r)) = true).
  { intros r Hin. rewrite <- Ek in Hin. apply filter_In in Hin as [Hin _].
    rewrite Forall_forall in Hr. specialize (Hr r Hin).
    apply andb_true_iff in Hr as [H1 H2].
    unfold row_writable, xls_of_row; cbn [nth_error debit_entry credit_entry
      row_amount row_lcy_amount]. rewrite H1, H2. auto. }
  assert (Hf : forallb row_writable (map (xls_of_row render) (map debit_entry (k :: ks)))
               && forallb row_writable
                    (map (xls_of_row render) (map (credit_entry ca cb) (k :: ks))) = true).
  { apply andb_true_iff. rewrite !forallb_forall. split;
    intros x Hx; rewrite map_map in Hx; apply in_map_iff in Hx as [y [<- Hy]];
    apply Hw; exact Hy. }
  cbn [map] in Hf. rewrite Hf. unfold in_accepted_set. rewrite Ek. reflexivity.
Qed.

Lemma NoDup_map_inj {A B : Type} (f : A -> B) (l : list A) :
  NoDup (map f l) -> forall x y, In x l -> In y l -> f x = f y -> x = y.
Proof.
  induction l as [|a l IH]; intros Hnd x y Hx Hy Hxy; [contradiction|].
  inversion Hnd as [|? ? Hnot Hnd']; subst.
  destruct Hx as [<- | Hx], Hy as [<- | Hy].
  - reflexivity.
  - exfalso. apply Hnot. rewrite Hxy. apply in_map. exact Hy.
  - exfalso. apply Hnot. rewrite <- Hxy. apply in_map. exact Hx.
  - apply IH; assumption.
Qed.

Lemma in_accepted_set_nodup (data : list cheque_record) :
  Forall (fun r => Table.cheque_shape (cheque_number r) = true) data ->
  NoDup (map cheque_number data) ->
  filter (in_accepted_set data) data = filter_accepted_cheques data.
Proof.
  intros Hs Hnd. unfold filter_accepted_cheques. apply filter_ext_in.
  intros r Hr. rewrite Forall_forall in Hs.
  destruct (is_accepted r) eqn:Ea; [apply accepted_in_set; auto|].
  destruct (in_accepted_set data r) eqn:Ei; [|reflexivity].
  unfold in_accepted_set in Ei. apply mem_In in Ei.
  rewrite accepted_cheque_numbers_map in Ei. apply in_map_iff in Ei as [r' [Hc Hr']].
  apply filter_In in Hr' as [Hr' Ha'].
  rewrite (strip_word _ (proj1 (cheque_shape_word _ (Hs r' Hr')))) in Hc.
  rewrite (NoDup_map_inj cheque_number data Hnd r' r Hr' Hr Hc) in Ha'.
  rewrite Ha' in Ea. discriminate.
Qed.

(** X5: reconciling a full batch that [generate_excel_batch] wrote against
    the records it was written from keeps, in order, the debit and credit
    rows of exactly the records whose cheque number is the cheque number of
    some accepted record (for records with 6-10 digit cheque numbers and
    amounts whose printed form [float()] reads back). *)
Theorem final_batch_of_full_batch (data : list cheque_record) (ca cb : string)
  (render : Q -> string)
  (Hshape : Forall (fun r => Table.cheque_shape (cheque_number r) = true) data)
  (Hrender : Forall (fun r => PyFloat.float_ok (render (cheque_amount r))
                              && PyFloat.float_ok (render (- cheque_amount r)) = true) data)
  (Hacc : filter_accepted_cheques data <> []) :
  generate_final_batch data
    (batch_headers :: map (xls_of_row render) (generate_excel_batch data ca cb))
  = FOutput batch_headers
      (map (xls_of_row render) (write_debit_entries (filter (in_accepted_set data) data)))
      (map (xls_of_row render) (write_credit_entries (filter (in_accepted_set data) data) ca cb)).
Proof. apply final_batch_kept; assumption. Qed.

(** Two records with distinct cheque numbers, the first one accepted. *)
Definition rt_accepted : cheque_record :=
  mk_record "98765432109876" 50000 "CITIZENS" "12345678" "1234567" "255" "ACCEPTED".

Definition rt_rejected : cheque_record :=
  mk_record "11122233344455" 75000 "KUMARI" "" "7654321" "255" "INSUFFICIENT FUNDS".

(** A record rejected in the report whose cheque number is the one of
    [rt_accepted]. *)
Definition rt_rejected_same_number : cheque_record :=
  mk_record "11122233344455" 75000 "KUMARI" "" "1234567" "255" "INSUFFICIENT FUNDS".

Lemma final_batch_of_full_batch_witness :
  let data := [rt_accepted; rt_rejected_same_number] in
  Forall (fun r => Table.cheque_shape (cheque_number r) = true) data
  /\ Forall (fun r => PyFloat.float_ok (fmt_amount (cheque_amount r))
                      && PyFloat.float_ok (fmt_amount (- cheque_amount r)) = true) data
  /\ filter_accepted_cheques data <> []
  /\ generate_final_batch data
       (batch_headers :: map (xls_of_row fmt_amount)
                             (generate_excel_batch data "9313102000" "255"))
     = FOutput batch_headers
         (map (xls_of_row fmt_amount) (write_debit_entries (filter (in_accepted_set data) data)))
         (map (xls_of_row fmt_amount)
              (write_credit_entries (filter (in_accepted_set data) data) "9313102000" "255")).
Proof.
  intros data.
  assert (H1 : Forall (fun r => Table.cheque_shape (cheque_number r) = true) data)
    by (repeat constructor).
  assert (H2 : Forall (fun r => PyFloat.float_ok (fmt_amount (cheque_amount r))
                                && PyFloat.float_ok (fmt_amount (- cheque_amount r)) = true) data)
    by (repeat constructor).
  assert (H3 : filter_accepted_cheques data <> []) by (vm_compute; discriminate).
  split; [exact H1|]. split; [exact H2|]. split; [exact H3|].
  exact (final_batch_of_full_batch data "9313102000" "255" fmt_amount H1 H2 H3).
Defined.

(** X6: when the records' cheque numbers are distinct, reconciling the full
    batch against the same records gives exactly the accepted batch: the
    kept debit rows followed by the kept credit rows are the rows
    [generate_excel_batch] writes for [filter_accepted_cheques]. *)
Theorem final_batch_is_accepted_batch (data : list cheque_record) (ca cb : string)
  (render : Q -> string)
  (Hshape : Forall (fun r => Table.cheque_shape (cheque_number r) = true) data)
  (Hrender : Forall (fun r => PyFloat.float_ok (render (cheque_amount r))
                              && PyFloat.float_ok (render (- cheque_amount r)) = true) data)
  (Hdistinct : NoDup (map cheque_number data))
  (Hacc : filter_accepted_cheques data <> []) :
  exists kept_555 kept_055,
    generate_final_batch data
      (batch_headers :: map (xls_of_row render) (generate_excel_batch data ca cb))
    = FOutput batch_headers kept_555 kept_055
    /\ kept_555 ++ kept_055
       = map (xls_of_row render) (generate_excel_batch (filter_accepted_cheques data) ca cb).
Proof.
  rewrite (final_batch_kept data ca cb render Hshape Hrender Hacc).
  rewrite (in_accepted_set_nodup data Hshape Hdistinct).
  eexists; eexists; split; [reflexivity|].
  unfold generate_excel_batch. rewrite map_app. reflexivity.
Qed.

Lemma final_batch_is_accepted_batch_witness :
  let data := [rt_rejected; rt_accepted] in
  Forall (fun r => Table.cheque_shape (cheque_number r) = true) data
  /\ Forall (fun r => PyFloat.float_ok (fmt_amount (cheque_amount r))
                      && PyFloat.float_ok (fmt_amount (- cheque_amount r)) = true) data
  /\ NoDup (map cheque_number data)
  /\ filter_accepted_cheques data <> []
  /\ exists kept_555 kept_055,
       generate_final_batch data
         (batch_headers :: map (xls_of_row fmt_amount)
                               (generate_excel_batch data "9313102000" "255"))
       = FOutput batch_headers kept_555 kept_055
       /\ kept_555 ++ kept_055
          = map (xls_of_row fmt_amount)
                (generate_excel_batch (filter_accepted_cheques data) "9313102000" "255").
Proof.
  intros data.
  assert (H1 : Forall (fun r => Table.cheque_shape (cheque_number r) = true) data)
    by (repeat constructor).
  assert (H2 : Forall (fun r => PyFloat.float_ok (fmt_amount (cheque_amount r))
                                && PyFloat.float_ok (fmt_amount (- cheque_amount r)) = true) data)
    by (repeat constructor).
  assert (H3 : NoDup (map cheque_number data)).
  { constructor; [simpl; intros [H|[]]; discriminate H | constructor; [simpl; tauto | constructor]]. }
  assert (H4 : filter_accepted_cheques data <> []) by (vm_compute; discriminate).
  split; [exact H1|]. split; [exact H2|]. split; [exact H3|]. split; [exact H4|].
  exact (final_batch_is_accepted_batch data "9313102000" "255" fmt_amount H1 H2 H3 H4).
Defined.

(** ** Summary counts *)

Definition disposition_eq_dec (x y : disposition) : {x = y} + {x <> y}.
Proof. decide equality. Defined.

Definition is_disp (d : disposition) (r : cheque_record) : bool :=
  if disposition_eq_dec (disposition_of r) d then true else false.

Definition count_disp (d : disposition) (data : list cheque_record) : Z :=
  Z.of_nat (List.length (filter (is_disp d) data)).

Lemma count_disp_cons (d : disposition) (r : cheque_record) (data : list cheque_record) :
  count_disp d (r :: data) = ((if is_disp d r then 1 else 0) + count_disp d data)%Z.
Proof. unfold count_disp. cbn [filter]. destruct (is_disp d r); cbn [List.length]; lia. Qed.

Lemma fold_count_step (data : list cheque_record) :
  forall a i o,
  fold_left count_step data (a, i, o)
  = (a + count_disp DAccepted data, i + count_disp DInsufficient data,
     o + count_disp DOther data)%Z.
Proof.
  induction data as [|r data IH]; intros a i o.
  - unfold count_disp. simpl. rewrite !Z.add_0_r. reflexivity.
  - cbn [fold_left]. rewrite !count_disp_cons. unfold is_disp, count_step.
    destruct (disposition_of r); cbn -[Z.add count_disp]; rewrite IH.
    all: apply f_equal2; [apply f_equal2|]; lia.
Qed.

Lemma count_disp_partition (data : list cheque_record) :
  Z.of_nat (List.length data)
  = (count_disp DAccepted data + count_disp DInsufficient data
     + count_disp DOther data + count_disp DNone data)%Z.
Proof.
  induction data as [|r data IH]; [reflexivity|].
  rewrite !count_disp_cons. unfold is_disp. cbn [List.length].
  destruct (disposition_of r); cbn -[Z.add count_disp Z.of_nat]; lia.
Qed.

Lemma disposition_accepted (r : cheque_record) :
  is_disp DAccepted r = is_accepted r.
Proof.
  unfold is_disp, disposition_of, is_accepted.
  destruct (Py.contains "ACCEPTED" _); [reflexivity|].
  destruct (_ || _); [reflexivity|]. destruct (negb _); reflexivity.
Qed.

Lemma disposition_none (r : cheque_record) :
  is_disp DNone r = String.eqb (Py.strip (Py.upper (reason r))) "".
Proof.
  unfold is_disp, disposition_of.
  destruct (Py.strip (Py.upper (reason r))) as [|c s]; [reflexivity|].
  destruct (Py.contains "ACCEPTED" _); [reflexivity|].
  destruct (_ || _); reflexivity.
Qed.

Lemma accepted_count_eq (data : list cheque_record) :
  accepted_count (summarize data) = Z.of_nat (List.length (filter_accepted_cheques data)).
Proof.
  unfold summarize. rewrite fold_count_step. cbn [accepted_count].
  unfold count_disp, filter_accepted_cheques.
  rewrite (filter_ext (is_disp DAccepted) is_accepted) by apply disposition_accepted.
  lia.
Qed.

(** X7: the accepted count of the summary is the number of records
    [filter_accepted_cheques] keeps. *)
Theorem summary_accepted_count (data : list cheque_record) :
  accepted_count (summarize data) = Z.of_nat (List.length (filter_accepted_cheques data)).
Proof. apply accepted_count_eq. Qed.

(** X8: [no_reason_count], computed as the total minus the three other
    counts, is the number of records whose upper-cased, stripped reason is
    empty; so it is never negative. *)
Theorem summary_no_reason_count (data : list cheque_record) :
  no_reason_count (summarize data)
  = Z.of_nat (List.length
       (filter (fun r => String.eqb (Py.strip (Py.upper (reason r))) "") data)).
Proof.
  unfold summarize. rewrite fold_count_step. cbn [no_reason_count].
  rewrite (count_disp_partition data).
  unfold count_disp at 4.
  rewrite (filter_ext (is_disp DNone) _) by apply disposition_none.
  lia.
Qed.

(** ** The [generate_batch] view *)

Lemma filter_nil_iff {A : Type} (f : A -> bool) (l : list A) :
  filter f l = [] <-> Forall (fun x => f x = false) l.
Proof.
  induction l as [|x l IH]; simpl; [split; [constructor | reflexivity]|].
  destruct (f x) eqn:E; split.
  - discriminate.
  - intros H. inversion H as [|? ? Hx _]. congruence.
  - intros H. constructor; [exact E | apply IH; exact H].
  - intros H. inversion H. apply IH. assumption.
Qed.

(** X9: [generate_batch] answers 'No accepted cheques found' exactly when
    records were extracted, the batch type is 'accepted' and no record's
    reason contains ACCEPTED; a full batch never gives that answer. *)
Theorem generate_batch_no_accepted (extracted : list cheque_record) (batch_type : string)
  (branch_code parking_account : option string) :
  generate_batch extracted batch_type branch_code parking_account = BNoAccepted
  <-> extracted <> [] /\ batch_type = "accepted"
      /\ Forall (fun r => is_accepted r = false) extracted.
Proof.
  unfold generate_batch. cbv zeta.
  destruct extracted as [|r rest].
  - split; [discriminate | intros [H _]; contradiction].
  - destruct (String.eqb batch_type "accepted") eqn:Eb.
    + apply String.eqb_eq in Eb. subst batch_type.
      unfold filter_accepted_cheques.
      destruct (filter is_accepted (r :: rest)) eqn:Ef.
      * split; [|reflexivity]. intros _. split; [discriminate|]. split; [reflexivity|].
        apply filter_nil_iff. exact Ef.
      * split; [discriminate|]. intros [_ [_ H]].
        apply filter_nil_iff in H. rewrite H in Ef. discriminate.
    + split; [discriminate|]. intros [_ [H _]]. subst. discriminate.
Qed.

Lemma form_value_nonempty (v : option string) (d : string) :
  d <> "" -> form_value v d <> "".
Proof.
  intros Hd. unfold form_value.
  destruct (String.eqb (Py.strip _) "") eqn:E; [exact Hd|].
  intros H. rewrite H in E. discriminate.
Qed.

(** X10: in a batch from [generate_batch] every credit (055) row has a
    non-empty clearing branch and clearing account, whatever the form
    fields held (missing or blank fields fall back to 255 and 9313102000). *)
Theorem generate_batch_clearing_nonempty (extracted : list cheque_record)
  (batch_type : string) (branch_code parking_account : option string)
  (filename : string) (rows : list ledger_row)
  (H : generate_batch extracted batch_type branch_code parking_account = BBatch filename rows) :
  Forall (fun row => row_trancode row = "055" -> row_branch row <> "" /\ row_main row <> "") rows.
Proof.
  unfold generate_batch in H. cbv zeta in H.
  destruct extracted as [|r rest]; [discriminate|].
  destruct (if String.eqb batch_type "accepted" then _ else _) as [|d ds]; [discriminate|].
  injection H as _ <-.
  unfold generate_excel_batch, write_debit_entries, write_credit_entries.
  apply Forall_app. split.
  - apply Forall_forall. intros x Hx. apply in_map_iff in Hx as [y [<- _]]. discriminate.
  - apply Forall_forall. intros x Hx. apply in_map_iff in Hx as [y [<- _]]. intros _.
    split; apply form_value_nonempty; discriminate.
Qed.

Lemma generate_batch_clearing_nonempty_witness :
  generate_batch [rt_accepted] "full" (Some "   ") None
  = BBatch "ecc_batch.xls" (generate_excel_batch [rt_accepted] "9313102000" "255")
  /\ Forall (fun row => row_trancode row = "055" -> row_branch row <> "" /\ row_main row <> "")
            (generate_excel_batch [rt_accepted] "9313102000" "255").
Proof.
  assert (H : generate_batch [rt_accepted] "full" (Some "   ") None
              = BBatch "ecc_batch.xls" (generate_excel_batch [rt_accepted] "9313102000" "255"))
    by reflexivity.
  split; [exact H|]. exact (generate_batch_clearing_nonempty _ _ _ _ _ _ H).
Defined.

(** X11: the accepted batch has two rows (a debit and a credit) per record
    the summary counts as accepted. *)
Theorem accepted_batch_rows_count (extracted : list cheque_record)
  (branch_code parking_account : option string) (filename : string) (rows : list ledger_row)
  (H : generate_batch extracted "accepted" branch_code parking_account = BBatch filename rows) :
  Z.of_nat (List.length rows) = (2 * accepted_count (summarize extracted))%Z.
Proof.
  rewrite accepted_count_eq.
  unfold generate_batch in H. cbv zeta in H.
  destruct extracted as [|r rest]; [discriminate|].
  cbn [String.eqb Ascii.eqb Bool.eqb] in H.
  destruct (filter_accepted_cheques (r :: rest)) as [|d ds] eqn:Ef; [discriminate|].
  injection H as _ <-. rewrite generate_excel_batch_length. lia.
Qed.

Lemma accepted_batch_rows_count_witness :
  generate_batch [rt_accepted; rt_rejected] "accepted" None None
  = BBatch "ecc_batch_accepted.xls" (generate_excel_batch [rt_accepted] "9313102000" "255")
  /\ Z.of_nat (List.length (generate_excel_batch [rt_accepted] "9313102000" "255"))
     = (2 * accepted_count (summarize [rt_accepted; rt_rejected]))%Z.
Proof.
  assert (H : generate_batch [rt_accepted; rt_rejected] "accepted" None None
              = BBatch "ecc_batch_accepted.xls"
                       (generate_excel_batch [rt_accepted] "9313102000" "255"))
    by reflexivity.
  split; [exact H|]. exact (accepted_batch_rows_count _ _ _ _ _ H).
Defined.

(** ** Balanced batches *)

(** The sum of one numeric column over the rows. *)
Definition column_sum (col : ledger_row -> Q) (rows : list ledger_row) : Q :=
  fold_right (fun r acc => col r + acc)%Q 0%Q rows.

Lemma column_sum_app (col : ledger_row -> Q) (l1 l2 : list ledger_row) :
  (column_sum col (l1 ++ l2) == column_sum col l1 + column_sum col l2)%Q.
Proof.
  induction l1 as [|x l1 IH]; simpl; [ring|]. rewrite IH. ring.
Qed.

Lemma column_sum_pairs {A : Type} (col : ledger_row -> Q) (f g : A -> ledger_row) (l : list A) :
  (forall x, col (f x) + col (g x) == 0)%Q ->
  (column_sum col (map f l ++ map g l) == 0)%Q.
Proof.
  intros Hfg. rewrite column_sum_app.
  induction l as [|x l IH]; simpl; [reflexivity|].
  transitivity ((col (f x) + col (g x)) + (column_sum col (map f l) + column_sum col (map g l)))%Q;
    [ring|]. rewrite Hfg, IH. reflexivity.
Qed.

(** X12: a batch from [generate_batch] balances: its AMOUNT column and its
    LCYAMOUNT column each sum to zero. *)
Theorem generate_batch_balanced (extracted : list cheque_record) (batch_type : string)
  (branch_code parking_account : option string) (filename : string) (rows : list ledger_row)
  (H : generate_batch extracted batch_type branch_code parking_account = BBatch filename rows) :
  (column_sum row_amount rows == 0)%Q /\ (column_sum row_lcy_amount rows == 0)%Q.
Proof.
  unfold generate_batch in H. cbv zeta in H.
  destruct extracted as [|r rest]; [discriminate|].
  destruct (if String.eqb batch_type "accepted" then _ else _) as [|d ds]; [discriminate|].
  injection H as _ <-.
  unfold generate_excel_batch, write_debit_entries, write_credit_entries.
  split; apply column_sum_pairs; intros x; simpl; ring.
Qed.

Lemma generate_batch_balanced_witness :
  generate_batch [rt_accepted; rt_rejected] "full" None None
  = BBatch "ecc_batch.xls"
      (generate_excel_batch [rt_accepted; rt_rejected] "9313102000" "255")
  /\ (column_sum row_amount (generate_excel_batch [rt_accepted; rt_rejected] "9313102000" "255")
      == 0)%Q
  /\ (column_sum row_lcy_amount
        (generate_excel_batch [rt_accepted; rt_rejected] "9313102000" "255") == 0)%Q.
Proof.
  assert (H : generate_batch [rt_accepted; rt_rejected] "full" None None
              = BBatch "ecc_batch.xls"
                  (generate_excel_batch [rt_accepted; rt_rejected] "9313102000" "255"))
    by reflexivity.
  split; [exact H|]. exact (generate_batch_balanced _ _ _ _ _ _ H).
Defined.

(** X13: a commission batch balances: its AMOUNT column and its LCYAMOUNT
    column each sum to zero. *)
Theorem commission_batch_balanced (extracted : list cheque_record)
  (commission_account : string) (commission_amount amount_threshold : Q)
  (clearing_branch : string) (rows : list ledger_row)
  (H : generate_commission_batch extracted commission_account commission_amount
         amount_threshold clearing_branch = CommBatch rows) :
  (column_sum row_amount rows == 0)%Q /\ (column_sum row_lcy_amount rows == 0)%Q.
Proof.
  unfold generate_commission_batch in H. cbv zeta in H.
  destruct extracted as [|r rest]; [discriminate|].
  destruct (filter_by_threshold (r :: rest) amount_threshold) as [|e es]; [discriminate|].
  injection H as <-.
  split; refine (column_sum_pairs _ _ _ (e :: es) _); intros x; simpl; ring.
Qed.

Lemma commission_batch_balanced_witness :
  generate_commission_batch [rt_accepted; rt_rejected] "1234567890" 50 10000 "255"
  = CommBatch (map (commission_debit_row "255" 50) [rt_accepted; rt_rejected]
               ++ map (commission_credit_row "1234567890" "255" 50) [rt_accepted; rt_rejected])
  /\ (column_sum row_amount
        (map (commission_debit_row "255" 50) [rt_accepted; rt_rejected]
         ++ map (commission_credit_row "1234567890" "255" 50) [rt_accepted; rt_rejected]) == 0)%Q
  /\ (column_sum row_lcy_amount
        (map (commission_debit_row "255" 50) [rt_accepted; rt_rejected]
         ++ map (commission_credit_row "1234567890" "255" 50) [rt_accepted; rt_rejected]) == 0)%Q.
Proof.
  assert (H : generate_commission_batch [rt_accepted; rt_rejected] "1234567890" 50 10000 "255"
              = CommBatch (map (commission_debit_row "255" 50) [rt_accepted; rt_rejected]
                           ++ map (commission_credit_row "1234567890" "255" 50) [rt_accepted; rt_rejected]))
    by reflexivity.
  split; [exact H|]. exact (commission_batch_balanced _ _ _ _ _ _ H).
Defined.

(** ** Output of the reconciliation *)

Lemma split_by_trancode_sound (rows : list xls_row) :
  forall r555 r055, split_by_trancode rows = Some (r555, r055) ->
  Forall (fun r => has_trancode "555" r = true) r555
  /\ Forall (fun r => has_trancode "055" r = true) r055.
Proof.
  induction rows as [|r rows IH]; intros r555 r055 H.
  - injection H as <- <-. split; constructor.
  - cbn [split_by_trancode] in H.
    destruct (nth_error r 2) as [v|] eqn:E2; [|discriminate].
    destruct (split_by_trancode rows) as [[a b]|]; [|discriminate].
    destruct (IH a b eq_refl) as [Ha Hb].
    assert (Hv : nth 2 r "" = v) by (apply nth_error_nth; exact E2).
    destruct (String.eqb (Py.strip v) "555") eqn:E5.
    + injection H as <- <-. split; [constructor; [|exact Ha] | exact Hb].
      unfold has_trancode. rewrite Hv. exact E5.
    + destruct (String.eqb (Py.strip v) "055") eqn:E0.
      * injection H as <- <-. split; [exact Ha | constructor; [|exact Hb]].
        unfold has_trancode. rewrite Hv. exact E0.
      * injection H as <- <-. split; assumption.
Qed.

Lemma match_pairs_from_sound (accepted : list string) (rows_055 : list xls_row) :
  forall rows_555 idx k5 k0,
  match_pairs_from accepted rows_055 idx rows_555 = Some (k5, k0) ->
  List.length k5 = List.length k0
  /\ (forall x, In x k5 -> In x rows_555 /\ In (debit_cheque_number x) accepted)
  /\ (forall y, In y k0 -> In y rows_055).
Proof.
  induction rows_555 as [|row rest IH]; intros idx k5 k0 H.
  - injection H as <- <-. split; [reflexivity|]. split; intros ? [].
  - cbn [match_pairs_from] in H.
    destruct (nth_error row 6) as [d|] eqn:E6; [|discriminate].
    destruct (Py.mem (last_token d) accepted) eqn:Em.
    + destruct (nth_error rows_055 idx) as [row0|] eqn:Ei; [|discriminate].
      destruct (match_pairs_from accepted rows_055 (S idx) rest) as [[a b]|] eqn:Er;
        [|discriminate].
      injection H as <- <-.
      destruct (IH _ _ _ Er) as [Hl [Ha Hb]].
      split; [simpl; rewrite Hl; reflexivity|]. split.
      * intros x [<- | Hx].
        -- split; [left; reflexivity|]. apply mem_In.
           unfold debit_cheque_number. rewrite (nth_error_nth row 6 "" E6). exact Em.
        -- destruct (Ha x Hx) as [H1 H2]. split; [right; exact H1 | exact H2].
      * intros y [<- | Hy]; [eapply nth_error_In; exact Ei | apply Hb; exact Hy].
    + destruct (IH _ _ _ H) as [Hl [Ha Hb]].
      split; [exact Hl|]. split; [|exact Hb].
      intros x Hx. destruct (Ha x Hx) as [H1 H2]. split; [right; exact H1 | exact H2].
Qed.

(** X14: when [generate_final_batch] writes an output, its header row is the
    uploaded sheet's first row, it keeps at least one pair and as many 055
    rows as 555 rows, every kept 555 row has TRANCODE 555 and a DESC2 whose
    last token is an accepted cheque number, every kept 055 row has
    TRANCODE 055, and every kept row comes from the uploaded sheet. *)
Theorem final_batch_output (extracted : list cheque_record) (sheet : list xls_row)
  (headers : xls_row) (kept_555 kept_055 : list xls_row)
  (H : generate_final_batch extracted sheet = FOutput headers kept_555 kept_055) :
  (exists rows, sheet = headers :: rows
                /\ (forall r, In r (kept_555 ++ kept_055) -> In r rows))
  /\ kept_555 <> [] /\ List.length kept_555 = List.length kept_055
  /\ Forall (fun r => has_trancode "555" r = true
                      /\ In (debit_cheque_number r) (accepted_cheque_numbers extracted)) kept_555
  /\ Forall (fun r => has_trancode "055" r = true) kept_055.
Proof.
  unfold generate_final_batch in H. cbv zeta in H.
  destruct extracted as [|e0 es]; [discriminate|].
  remember (accepted_cheque_numbers (e0 :: es)) as acc eqn:Eacc.
  destruct acc as [|n ns]; [discriminate|].
  destruct sheet as [|hd rows]; [discriminate|].
  destruct (split_by_trancode rows) as [[a b]|] eqn:Es; [|discriminate].
  destruct (negb _); [discriminate|].
  destruct (match_pairs (n :: ns) a b) as [[x y]|] eqn:Em; [|discriminate].
  unfold write_final in H.
  destruct x as [|x0 xs]; [discriminate|].
  destruct (_ && _); [|discriminate].
  injection H as <- <- <-.
  destruct (match_pairs_from_sound _ _ _ _ _ _ Em) as [Hl [Hx Hy]].
  destruct (split_by_trancode_sound rows a b Es) as [Ha Hb].
  assert (Hsub : forall r, In r a \/ In r b -> In r rows).
  { assert (Hf : split_by_trancode rows = Some (filter (has_trancode "555") rows,
                                                  filter (has_trancode "055") rows)).
    { apply split_by_trancode_filter.
      clear - Es. revert a b Es.
      induction rows as [|r rows IH]; intros a b Es; [constructor|].
      cbn [split_by_trancode] in Es.
      destruct (nth_error r 2) eqn:E2; [|discriminate].
      destruct (split_by_trancode rows) as [[c d]|]; [|discriminate].
      constructor; [|eapply IH; reflexivity].
      assert (Hlt : (2 < List.length r)%nat) by (apply nth_error_Some; rewrite E2; discriminate).
      lia. }
    rewrite Es in Hf. injection Hf as -> ->.
    intros r [Hr | Hr]; apply filter_In in Hr; apply Hr. }
  split.
  { exists rows. split; [reflexivity|]. intros r Hr. apply in_app_or in Hr as [Hr | Hr].
    - apply Hsub. left. apply (Hx r Hr).
    - apply Hsub. right. apply (Hy r Hr). }
  split; [discriminate|]. split; [exact Hl|].
  rewrite Forall_forall in Ha, Hb.
  split; apply Forall_forall.
  - intros r Hr. destruct (Hx r Hr) as [H1 H2]. split; [apply Ha; exact H1|].
    exact H2.
  - intros r Hr. apply Hb, Hy. exact Hr.
Qed.

Lemma final_batch_output_witness :
  generate_final_batch [rt_accepted; rt_rejected]
    (batch_headers :: map (xls_of_row fmt_amount)
                          (generate_excel_batch [rt_accepted; rt_rejected] "9313102000" "255"))
  = FOutput batch_headers
      (map (xls_of_row fmt_amount) (write_debit_entries [rt_accepted]))
      (map (xls_of_row fmt_amount) (write_credit_entries [rt_accepted] "9313102000" "255"))
  /\ ((exists rows, batch_headers :: map (xls_of_row fmt_amount)
                          (generate_excel_batch [rt_accepted; rt_rejected] "9313102000" "255")
                    = batch_headers :: rows
                    /\ (forall r, In r (map (xls_of_row fmt_amount)
                                           (write_debit_entries [rt_accepted])
                                        ++ map (xls_of_row fmt_amount)
                                           (write_credit_entries [rt_accepted] "9313102000" "255"))
                                  -> In r rows))
      /\ map (xls_of_row fmt_amount) (write_debit_entries [rt_accepted]) <> []
      /\ List.length (map (xls_of_row fmt_amount) (write_debit_entries [rt_accepted]))
         = List.length (map (xls_of_row fmt_amount)
                            (write_credit_entries [rt_accepted] "9313102000" "255"))
      /\ Forall (fun r => has_trancode "555" r = true
                          /\ In (debit_cheque_number r)
                                (accepted_cheque_numbers [rt_accepted; rt_rejected]))
                (map (xls_of_row fmt_amount) (write_debit_entries [rt_accepted]))
      /\ Forall (fun r => has_trancode "055" r = true)
                (map (xls_of_row fmt_amount)
                     (write_credit_entries [rt_accepted] "9313102000" "255"))).
Proof.
  assert (H : generate_final_batch [rt_accepted; rt_rejected]
                (batch_headers :: map (xls_of_row fmt_amount)
                   (generate_excel_batch [rt_accepted; rt_rejected] "9313102000" "255"))
              = FOutput batch_headers
                  (map (xls_of_row fmt_amount) (write_debit_entries [rt_accepted]))
                  (map (xls_of_row fmt_amount)
                       (write_credit_entries [rt_accepted] "9313102000" "255")))
    by (vm_compute; reflexivity).
  split; [exact H|]. exact (final_batch_output _ _ _ _ _ H).
Defined.

(** X15: [generate_final_batch] answers 'No ACCEPTED cheques found in the
    PDF' exactly when records were extracted and none has a reason
    containing ACCEPTED, whatever the uploaded sheet holds. *)
Theorem final_batch_no_accepted (extracted : list cheque_record) (sheet : list xls_row) :
  generate_final_batch extracted sheet = FNoAccepted
  <-> extracted <> [] /\ Forall (fun r => is_accepted r = false) extracted.
Proof.
  unfold generate_final_batch. cbv zeta.
  destruct extracted as [|e0 es].
  - split; [discriminate | intros [H _]; contradiction].
  - rewrite <- filter_nil_iff.
    assert (Hiff : accepted_cheque_numbers (e0 :: es) = [] <-> filter is_accepted (e0 :: es) = []).
    { rewrite accepted_cheque_numbers_map.
      destruct (filter is_accepted (e0 :: es)); simpl; split; congruence. }
    destruct (accepted_cheque_numbers (e0 :: es)) as [|n ns].
    + split; [intros _; split; [discriminate | apply Hiff; reflexivity] | reflexivity].
    + split; [|intros [_ H]; apply Hiff in H; discriminate].
      intros H. exfalso. revert H.
      destruct sheet as [|hd rows]; [discriminate|].
      destruct (split_by_trancode rows) as [[a b]|]; [|discriminate].
      destruct (negb _); [discriminate|].
      destruct (match_pairs _ a b) as [[x y]|]; [|discriminate].
      unfold write_final. destruct x; [discriminate|]. destruct (_ && _); discriminate.
Qed.

(** X16: [generate_commission_batch] answers 'No ACCEPTED cheques with
    amount greater than ...' exactly when records were extracted and none
    has an amount above the threshold. *)
Theorem commission_no_eligible (extracted : list cheque_record)
  (commission_account : string) (commission_amount amount_threshold : Q)
  (clearing_branch : string) :
  generate_commission_batch extracted commission_account commission_amount
    amount_threshold clearing_branch = CommNoEligible
  <-> extracted <> [] /\ Forall (fun r => (cheque_amount r <= amount_threshold)%Q) extracted.
Proof.
  unfold generate_commission_batch. cbv zeta.
  destruct extracted as [|e0 es].
  - split; [discriminate | intros [H _]; contradiction].
  - assert (Hiff : filter_by_threshold (e0 :: es) amount_threshold = []
                   <-> Forall (fun r => (cheque_amount r <= amount_threshold)%Q) (e0 :: es)).
    { unfold filter_by_threshold. rewrite filter_nil_iff.
      split; intros H; eapply Forall_impl; try exact H; intros r Hr.
      - apply Qnot_lt_le. intros Hlt. apply Qgtb_spec in Hlt. congruence.
      - destruct (Qgtb (cheque_amount r) amount_threshold) eqn:E; [|reflexivity].
        apply Qgtb_spec in E. exfalso. apply (Qlt_not_le _ _ E Hr). }
    destruct (filter_by_threshold (e0 :: es) amount_threshold) as [|x xs].
    + split; [intros _; split; [discriminate | apply Hiff; reflexivity] | reflexivity].
    + split; [discriminate | intros [_ H]; apply Hiff in H; discriminate].
Qed.

(** X17: the bank-name fix-up is idempotent: fixing an already fixed name
    changes nothing. *)
Theorem fix_name_idempotent (n : string) :
  Table.fix_name (Table.fix_name n) = Table.fix_name n.
Proof.
  unfold Table.fix_name at 2 3.
  destruct (find (fun kv => String.eqb (fst kv) n) Table.BANK_NAME_FIXES) as [[k v]|] eqn:E.
  - apply find_some in E as [Hin _].
    unfold Table.BANK_NAME_FIXES in Hin.
    repeat (destruct Hin as [Hin | Hin]; [injection Hin as <- <-; reflexivity|]).
    contradiction.
  - unfold Table.fix_name. rewrite E. reflexivity.
Qed.
